(** * PowerWatch: the Argentina and Brazil database builders and the
      country summary, embedded and checked against their specification.

    Sources embedded here:
    - [build_databases/build_database_ARG.py]  (module [ARG])
    - [build_databases/build_database_BRA.py]  (module [BRA])
    - [utils/powerwatch_summary.py]            (module [Summary])

    The scripts are Python 2.  Python floats are modelled by exact rationals
    ([Q]); Python unicode text by [string], one [ascii] per character (the
    Brazilian page is ISO-8859-1, so every character of it fits one byte). *)

From Stdlib Require Import QArith Ascii String.
From stdpp Require Import gmap strings list fin_maps pretty sorting.

Local Open Scope string_scope.
Local Open Scope list_scope.

(** ** The Python runtime notions the scripts rely on *)
Module Py.

(** The exceptions that the modelled statements can raise. *)
Inductive exn : Set :=
| ValueError   (* float(), int(), locale.atof() on malformed text *)
| KeyError     (* d[k] on a missing key *)
| IndexError   (* seq[i] out of range *)
| TypeError    (* None / 1000 *)
| StopIteration.  (* next() on an exhausted reader *)

(** A statement either completes with a value or raises; nothing in the
    scripts catches an exception except the two bare [try/except] blocks of
    the Argentina loop, which are modelled where they stand. *)
Inductive result (A : Type) : Type :=
| Ok (a : A)
| Raise (e : exn).
Global Arguments Ok {A} a.
Global Arguments Raise {A} e.

Global Instance result_ret : MRet result := λ A a, Ok a.
Global Instance result_bind : MBind result := λ A B k r,
  match r with
  | Ok a => k a
  | Raise e => Raise e
  end.

Definition is_ok {A} (r : result A) : bool :=
  match r with Ok _ => true | Raise _ => false end.

(** [if s:] on a string: the empty string is false, any other is true. *)
Definition truthy (s : string) : bool :=
  match s with
  | EmptyString => false
  | String _ _ => true
  end.

(** [unicode.isspace()] on a character below 256, the whitespace that
    [strip()] and [split()] remove from the unicode texts of the cells:
    codes 9-13, 28-32, 133 and 160. *)
Definition is_space (c : ascii) : bool :=
  let n := nat_of_ascii c in
  ((9 <=? n)%nat && (n <=? 13)%nat) || ((28 <=? n)%nat && (n <=? 32)%nat)
  || (n =? 133)%nat || (n =? 160)%nat.

Fixpoint lstrip (s : string) : string :=
  match s with
  | String c s' => if is_space c then lstrip s' else s
  | EmptyString => EmptyString
  end.

Fixpoint rstrip (s : string) : string :=
  match s with
  | String c s' =>
      match rstrip s' with
      | EmptyString => if is_space c then EmptyString else String c EmptyString
      | t => String c t
      end
  | EmptyString => EmptyString
  end.

Definition strip (s : string) : string := rstrip (lstrip s).

(** [s[i:j]] with Python's treatment of negative and out-of-range bounds. *)
Definition clamp_index (len i : Z) : Z :=
  if (i <? 0)%Z then Z.max 0 (len + i) else Z.min i len.

Definition slice (s : string) (i j : Z) : string :=
  let len := Z.of_nat (String.length s) in
  let a := clamp_index len i in
  let b := clamp_index len j in
  substring (Z.to_nat a) (Z.to_nat (b - a)) s.

(** [needle in hay] on strings. *)
Fixpoint contains (needle hay : string) : bool :=
  String.prefix needle hay ||
  match hay with
  | String _ hay' => contains needle hay'
  | EmptyString => false
  end.

(** [int(s)] in base 10 (CPython 2: blanks, an optional sign, blanks again,
    at least one digit, blanks). *)
Definition digit_value (c : ascii) : option Z :=
  let n := nat_of_ascii c in
  if (48 <=? n)%nat && (n <=? 57)%nat then Some (Z.of_nat (n - 48)) else None.

Fixpoint digits_value (acc : Z) (s : string) : option Z :=
  match s with
  | EmptyString => Some acc
  | String c s' =>
      match digit_value c with
      | Some d => digits_value (10 * acc + d) s'
      | None => None
      end
  end.

Definition unsigned_value (s : string) : option Z :=
  match rstrip (lstrip s) with
  | EmptyString => None
  | t => digits_value 0 t
  end.

Definition int (s : string) : result Z :=
  let t := lstrip s in
  let parsed :=
    match t with
    | String "-"%char t' => Z.opp <$> unsigned_value t'
    | String "+"%char t' => unsigned_value t'
    | _ => unsigned_value t
    end in
  match parsed with
  | Some z => Ok z
  | None => Raise ValueError
  end.

(** A cell of a spreadsheet row as xlrd returns it: text (the empty string
    for an empty cell) or a number. *)
Inductive Cell : Type :=
| CText (s : string)
| CNumber (q : Q).

(** [float(x)]: a number is itself; text is parsed by [float_of_text], the
    runtime's text-to-float conversion, [None] when it raises ValueError. *)
Definition float (float_of_text : string → option Q) (c : Cell) : result Q :=
  match c with
  | CNumber q => Ok q
  | CText s =>
      match float_of_text s with
      | Some q => Ok q
      | None => Raise ValueError
      end
  end.

(** Plain decimal literals, blanks around them allowed: the part of
    [float]'s text grammar that the examples below use.  Python accepts
    more (fractions, exponents, inf, nan); the general theorems quantify
    over the conversion and do not depend on this one. *)
Definition decimal_float (s : string) : option Q :=
  let digits t :=
    match rstrip t with
    | EmptyString => None
    | u => inject_Z <$> digits_value 0 u
    end in
  match lstrip s with
  | String "-"%char t => Qopp <$> digits t
  | String "+"%char t => digits t
  | t => digits t
  end.

(** [for x in xs: body], threading the loop variables as a state; an
    exception raised by the body ends the loop and the script. *)
Fixpoint for_each {S A : Type} (body : S → A → result S) (st : S)
    (xs : list A) : result S :=
  match xs with
  | [] => Ok st
  | x :: xs' =>
      match body st x with
      | Ok st' => for_each body st' xs'
      | Raise e => Raise e
      end
  end.

(** The same for a body that may execute [break]. *)
Inductive flow (S : Type) : Type :=
| Next (st : S)
| Break (st : S).
Global Arguments Next {S} st.
Global Arguments Break {S} st.

Fixpoint for_each_break {S A : Type} (body : S → A → result (flow S))
    (st : S) (xs : list A) : result S :=
  match xs with
  | [] => Ok st
  | x :: xs' =>
      match body st x with
      | Ok (Next st') => for_each_break body st' xs'
      | Ok (Break st') => Ok st'
      | Raise e => Raise e
      end
  end.

(** [seq[i]] on a list. *)
Definition index {A : Type} (xs : list A) (i : nat) : result A :=
  match xs !! i with
  | Some x => Ok x
  | None => Raise IndexError
  end.

(** [d[k] = v] on a dict kept as an association list: an existing key has
    its value replaced, a new key is added.  The list order is the order in
    which keys were first assigned; Python 2 does not expose it, and it is
    kept here only to speak about assignment order. *)
Fixpoint dict_set {V : Type} (d : list (string * V)) (k : string) (v : V)
    : list (string * V) :=
  match d with
  | [] => [(k, v)]
  | (k', v') :: d' =>
      if decide (k' = k) then (k, v) :: d' else (k', v') :: dict_set d' k v
  end.

End Py.

(** ** The [powerwatch] library module

    The scripts import [powerwatch as pw]; that module is not among the
    sources.  Its members that the scripts call are the fields of [Pw.Lib],
    and every definition of the scripts is parameterised by them. *)
Module Pw.

(** The second argument of [pw.format_string]: left out, [None], or a
    codec name. *)
Inductive Encoding : Set :=
| DefaultEncoding
| NoEncoding
| Codec (name : string).

Class Lib : Type := {
  format_string : string → Encoding → string;
  (** [pw.standardize_fuel(text, fuel_thesaurus)] with the thesaurus of
      [pw.make_fuel_thesaurus()] *)
  standardize_fuel : string → gset string;
  (** the keys of [pw.make_fuel_thesaurus()] in the order [.keys()] gives *)
  fuel_thesaurus_keys : list string;
  make_id : string → Z → string;
  NO_DATA_UNICODE : string;
  NO_DATA_SET : gset string
}.


End Pw.

(** ** build_database_ARG.py *)
Module ARG.
Import Py Pw.

Definition i_acute : ascii := ascii_of_nat 237.
Definition e_acute : ascii := ascii_of_nat 233.

Definition COUNTRY_NAME : string := "Argentina".
Definition SOURCE_NAME : string :=
  "Ministerio de Energ" +:+ String i_acute "a y Miner" +:+ String i_acute "a".
Definition SOURCE_URL : string :=
  "http://energia3.mecon.gov.ar/contenidos/archivos/Reorganizacion/informacion_del_mercado/publicaciones/mercado_electrico/estadisticosectorelectrico/2015/A1.POT_GEN_COMB_POR_CENTRAL_2015.xlsx".
Definition SAVE_CODE : string := "ARG".
Definition YEAR_OF_DATA : Z := 2015.
Definition CAPACITY_CONVERSION_TO_MW : Q := 1 # 1000.
Definition GENERATION_CONVERSION_TO_GWH : Q := 1 # 1000.

Definition date : Set := (Z * Z * Z)%type.
Definition gen_start : date := (YEAR_OF_DATA, 1, 1)%Z.
Definition gen_stop : date := (YEAR_OF_DATA, 12, 31)%Z.

(** One row of sheet POT_GEN, by the columns that [COLS] names: owner 1,
    name 2, fuel 3, grid 4, capacity 6, generation 7.  xlrd pads every row
    to the width of the sheet, so the six cells are always there. *)
Record RawRow : Type := {
  rv_owner : string;
  rv_name : string;
  rv_fuel : string;
  rv_grid : string;
  rv_capacity : Cell;
  rv_generation : Cell
}.

Record PlantGenerationObject : Type := {
  gwh : Q;
  start_date : date;
  end_date : date;
  gen_source : string
}.

Record LocationObject : Type := {
  loc_description : string;
  loc_latitude : string;
  loc_longitude : string
}.

(** A [pw.PowerPlant] as this script builds and later mutates it: the
    constructor arguments it passes, and the two attributes it assigns
    afterwards ([None] while the script has not assigned them). *)
Record PowerPlant : Type := {
  plant_idnr : string;
  plant_name : string;
  plant_owner : string;
  plant_fuel : gset string;
  plant_country : string;
  plant_capacity : Q;
  plant_cap_year : Z;
  plant_source : string;
  plant_source_url : string;
  plant_generation : PlantGenerationObject;
  location : option LocationObject;
  commissioning_year : option string
}.

(** What the two [except] blocks print. *)
Inductive Diagnostic : Type :=
| CantReadCapacity (plant : string)
| CantReadGeneration (plant : string) (value : Cell).

(** The variables of the row loop. *)
Record State : Type := {
  count : Z;
  current_plant_name : string;
  current_owner : string;
  current_fuel_types : gset string;
  current_capacity_sum : Q;
  current_generation_sum : Q;
  plants_dictionary : list (string * PowerPlant);
  printed : list Diagnostic
}.

(** What lines 163-180 leave behind: the dictionary items in the order
    [iteritems()] yielded them, and the two diagnostic lists.  The lists hold
    the plant objects themselves; an object is named here by the key under
    which the dictionary holds it. *)
Record Enriched : Type := {
  enriched_plants : list (string * PowerPlant);
  location_not_found : list string;
  year_not_found : list string
}.

Definition set_location (plant : PowerPlant) (loc : LocationObject)
    : PowerPlant :=
  {| plant_idnr := plant_idnr plant;
     plant_name := plant_name plant;
     plant_owner := plant_owner plant;
     plant_fuel := plant_fuel plant;
     plant_country := plant_country plant;
     plant_capacity := plant_capacity plant;
     plant_cap_year := plant_cap_year plant;
     plant_source := plant_source plant;
     plant_source_url := plant_source_url plant;
     plant_generation := plant_generation plant;
     location := Some loc;
     commissioning_year := commissioning_year plant |}.

Definition set_commissioning_year (plant : PowerPlant) (year : string)
    : PowerPlant :=
  {| plant_idnr := plant_idnr plant;
     plant_name := plant_name plant;
     plant_owner := plant_owner plant;
     plant_fuel := plant_fuel plant;
     plant_country := plant_country plant;
     plant_capacity := plant_capacity plant;
     plant_cap_year := plant_cap_year plant;
     plant_source := plant_source plant;
     plant_source_url := plant_source_url plant;
     plant_generation := plant_generation plant;
     location := location plant;
     commissioning_year := Some year |}.

Section Script.
Context `{lib : Lib} (float_of_text : string → option Q).

(** Lines 109-116 and, the same text, 144-151: assign ID number, make
    PowerPlant object, add to dictionary. *)
Definition new_plant (st : State) : PowerPlant :=
  {| plant_idnr := make_id SAVE_CODE (count st);
     plant_name := current_plant_name st;
     plant_owner := current_owner st;
     plant_fuel := current_fuel_types st;
     plant_country := COUNTRY_NAME;
     plant_capacity := current_capacity_sum st;
     plant_cap_year := YEAR_OF_DATA;
     plant_source := SOURCE_NAME;
     plant_source_url := SOURCE_URL;
     plant_generation :=
       {| gwh := current_generation_sum st;
          start_date := gen_start;
          end_date := gen_stop;
          gen_source := SOURCE_NAME |};
     location := None;
     commissioning_year := None |}.

Definition add_plant (st : State) : State :=
  {| count := count st + 1;
     current_plant_name := current_plant_name st;
     current_owner := current_owner st;
     current_fuel_types := current_fuel_types st;
     current_capacity_sum := current_capacity_sum st;
     current_generation_sum := current_generation_sum st;
     plants_dictionary :=
       dict_set (plants_dictionary st) (make_id SAVE_CODE (count st))
         (new_plant st);
     printed := printed st |}.

(** Lines 84-89: the first data row sets the loop variables. *)
Definition first_row (rv0 : RawRow) : result State :=
  let name := format_string (rv_name rv0) DefaultEncoding in
  let owner := format_string (rv_owner rv0) DefaultEncoding in
  let fuels := standardize_fuel (rv_fuel rv0) in
  capacity ← float float_of_text (rv_capacity rv0);
  generation ← float float_of_text (rv_generation rv0);
  Ok {| count := 1;
        current_plant_name := name;
        current_owner := owner;
        current_fuel_types := fuels;
        current_capacity_sum := capacity * CAPACITY_CONVERSION_TO_MW;
        current_generation_sum := generation * GENERATION_CONVERSION_TO_GWH;
        plants_dictionary := [];
        printed := [] |}.

(** Lines 118-131: reset all current values to this row. *)
Definition start_group (st : State) (rv : RawRow) (row_name row_fuel : string)
    : State :=
  let capacity :=
    match float float_of_text (rv_capacity rv) with
    | Ok q => ((q * CAPACITY_CONVERSION_TO_MW)%Q, [])
    | Raise _ => (0%Q, [CantReadCapacity row_name])
    end in
  let generation :=
    match float float_of_text (rv_generation rv) with
    | Ok q => ((q * GENERATION_CONVERSION_TO_GWH)%Q, [])
    | Raise _ => (0%Q, [CantReadGeneration row_name (rv_generation rv)])
    end in
  {| count := count st;
     current_plant_name := row_name;
     current_owner := format_string (rv_owner rv) NoEncoding;
     current_fuel_types := standardize_fuel row_fuel;
     current_capacity_sum := capacity.1;
     current_generation_sum := generation.1;
     plants_dictionary := plants_dictionary st;
     printed := printed st ++ capacity.2 ++ generation.2 |}.

(** Lines 134-137: additional unit of current plant. *)
Definition add_unit (st : State) (rv : RawRow) (row_fuel : string)
    : result State :=
  capacity ← float float_of_text (rv_capacity rv);
  generation ← float float_of_text (rv_generation rv);
  Ok {| count := count st;
        current_plant_name := current_plant_name st;
        current_owner := current_owner st;
        current_fuel_types :=
          current_fuel_types st ∪ standardize_fuel row_fuel;
        current_capacity_sum :=
          current_capacity_sum st + capacity * CAPACITY_CONVERSION_TO_MW;
        current_generation_sum :=
          current_generation_sum st
          + generation * GENERATION_CONVERSION_TO_GWH;
        plants_dictionary := plants_dictionary st;
        printed := printed st |}.

(** Lines 153-158: reset all current values to null. *)
Definition reset (st : State) : State :=
  {| count := count st;
     current_plant_name := NO_DATA_UNICODE;
     current_owner := NO_DATA_UNICODE;
     current_fuel_types := NO_DATA_SET;
     current_capacity_sum := 0;
     current_generation_sum := 0;
     plants_dictionary := plants_dictionary st;
     printed := printed st |}.

(** Lines 93-161: the body of the row loop. *)
Definition loop_body (st : State) (rv : RawRow) : result State :=
  let row_fuel := format_string (rv_fuel rv) NoEncoding in
  let row_name := format_string (rv_name rv) NoEncoding in
  let row_grid := format_string (rv_grid rv) NoEncoding in
  if decide (row_grid = "AISLADO") then Ok st
  else if truthy row_fuel then
    if truthy row_name then
      let st' :=
        if truthy (current_plant_name st) then add_plant st else st in
      Ok (start_group st' rv row_name row_fuel)
    else add_unit st rv row_fuel
  else
    if truthy (current_plant_name st) then Ok (reset (add_plant st))
    else Ok st.

(** Lines 78-161.  [rows] are the rows of the sheet from START_ROW to
    the last; [ws.row_values(START_ROW)] raises IndexError when there is
    none. *)
Definition run (rows : list RawRow) : result State :=
  match rows with
  | [] => Raise IndexError
  | rv0 :: rest => st0 ← first_row rv0; for_each loop_body st0 rest
  end.

(** The rows that the specification counts as starting a group:
    name-bearing, fuel-bearing and not islanded. *)
Definition starts_group (rv : RawRow) : bool :=
  negb (bool_decide (format_string (rv_grid rv) NoEncoding = "AISLADO"))
  && truthy (format_string (rv_fuel rv) NoEncoding)
  && truthy (format_string (rv_name rv) NoEncoding).

(** Whether a group is open: the test of lines 106 and 141. *)
Definition open_groups (st : State) : nat :=
  if truthy (current_plant_name st) then 1 else 0.

(** The identifiers of the dictionary in the order of assignment. *)
Definition identifiers (st : State) : list string :=
  fst <$> plants_dictionary st.

(** The loop invariant of the counter: it is one more than the number
    of identifiers, and the identifiers are those of the counter values
    passed so far. *)
Definition counted (st : State) : Prop :=
  (1 ≤ count st)%Z
  ∧ identifiers st = make_id SAVE_CODE <$> seqZ 1 (count st - 1).

(** The rows that the loop takes as an additional unit of the open group:
    fuel-bearing, nameless and not islanded (lines 99, 102, 104, 133). *)
Definition additional_unit (rv : RawRow) : bool :=
  negb (bool_decide (format_string (rv_grid rv) NoEncoding = "AISLADO"))
  && truthy (format_string (rv_fuel rv) NoEncoding)
  && negb (truthy (format_string (rv_name rv) NoEncoding)).

(** The rows that the loop takes as the end of a table: fuel-less and not
    islanded (lines 99, 102, 139). *)
Definition ends_table (rv : RawRow) : bool :=
  negb (bool_decide (format_string (rv_grid rv) NoEncoding = "AISLADO"))
  && negb (truthy (format_string (rv_fuel rv) NoEncoding)).

(** The rows that the filter of lines 99-100 lets through. *)
Definition connected (rv : RawRow) : Prop :=
  format_string (rv_grid rv) NoEncoding ≠ "AISLADO".

(** What every record of the dictionary looks like when the loop is
    over: lines 109-115. *)
Definition well_formed_record (kv : string * PowerPlant) : Prop :=
  plant_idnr kv.2 = kv.1
  ∧ truthy (plant_name kv.2) = true
  ∧ plant_country kv.2 = COUNTRY_NAME
  ∧ plant_cap_year kv.2 = YEAR_OF_DATA
  ∧ plant_source kv.2 = SOURCE_NAME
  ∧ plant_source_url kv.2 = SOURCE_URL
  ∧ gen_source (plant_generation kv.2) = SOURCE_NAME
  ∧ start_date (plant_generation kv.2) = gen_start
  ∧ end_date (plant_generation kv.2) = gen_stop
  ∧ location kv.2 = None
  ∧ commissioning_year kv.2 = None.

(** Lines 62-67: read locations.  [csv] is what the reader yields, the
    header row first. *)
Definition read_locations (csv : list (list string))
    : result (gmap string (string * string)) :=
  match csv with
  | [] => Raise StopIteration
  | _ :: rows =>
      for_each (λ (d : gmap string (string * string)) row,
        latitude ← index row 1;
        longitude ← index row 2;
        key ← index row 0;
        Ok (<[format_string key DefaultEncoding := (latitude, longitude)]> d))
        ∅ rows
  end.

(** The key and the value that line 67 assigns for a row of three cells
    or more. *)
Definition location_key (row : list string) : string :=
  format_string (default "" (row !! 0%nat)) DefaultEncoding.

Definition location_value (row : list string) : string * string :=
  (default "" (row !! 1%nat), default "" (row !! 2%nat)).

(** Lines 70-75: read commissioning years. *)
Definition read_commissioning_years (csv : list (list string))
    : result (gmap string string) :=
  match csv with
  | [] => Raise StopIteration
  | _ :: rows =>
      for_each (λ (d : gmap string string) row,
        year ← index row 1;
        key ← index row 0;
        Ok (<[format_string key DefaultEncoding := year]> d))
        ∅ rows
  end.

Section Enrichment.
Variable locations_dictionary : gmap string (string * string).
Variable commissioning_years_dictionary : gmap string string.

(** Lines 169-174. *)
Definition assign_location (plant : PowerPlant) : PowerPlant * bool :=
  match locations_dictionary !! plant_name plant with
  | Some coords =>
      (set_location plant
         {| loc_description := NO_DATA_UNICODE;
            loc_latitude := coords.1;
            loc_longitude := coords.2 |}, true)
  | None => (plant, false)
  end.

(** Lines 176-180. *)
Definition assign_year (plant : PowerPlant) : PowerPlant * bool :=
  match commissioning_years_dictionary !! plant_name plant with
  | Some year => (set_commissioning_year plant year, true)
  | None => (plant, false)
  end.

(** Lines 164-180.  [items] is the sequence [iteritems()] yields; each
    plant is updated in place, and a plant that misses a table has its
    reference appended to that table's list. *)
Fixpoint enrich (items : list (string * PowerPlant)) : Enriched :=
  match items with
  | [] =>
      {| enriched_plants := [];
         location_not_found := [];
         year_not_found := [] |}
  | (idnr, plant) :: rest =>
      let located := assign_location plant in
      let dated := assign_year located.1 in
      let later := enrich rest in
      {| enriched_plants := (idnr, dated.1) :: enriched_plants later;
         location_not_found :=
           if located.2 then location_not_found later
           else idnr :: location_not_found later;
         year_not_found :=
           if dated.2 then year_not_found later
           else idnr :: year_not_found later |}
  end.

(** What the location table does to one plant. *)
Definition located (before after : PowerPlant) : Prop :=
  location after
  = match locations_dictionary !! plant_name before with
    | Some coords =>
        Some {| loc_description := NO_DATA_UNICODE;
                loc_latitude := coords.1;
                loc_longitude := coords.2 |}
    | None => location before
    end.

(** What the commissioning-year table does to one plant. *)
Definition dated (before after : PowerPlant) : Prop :=
  commissioning_year after
  = match commissioning_years_dictionary !! plant_name before with
    | Some year => Some year
    | None => commissioning_year before
    end.

(** The fields that enrichment leaves alone. *)
Definition same_record (before after : PowerPlant) : Prop :=
  plant_idnr after = plant_idnr before
  ∧ plant_name after = plant_name before
  ∧ plant_owner after = plant_owner before
  ∧ plant_fuel after = plant_fuel before
  ∧ plant_country after = plant_country before
  ∧ plant_capacity after = plant_capacity before
  ∧ plant_cap_year after = plant_cap_year before
  ∧ plant_source after = plant_source before
  ∧ plant_source_url after = plant_source_url before
  ∧ plant_generation after = plant_generation before.
End Enrichment.

End Script.

End ARG.


(** ** build_database_BRA.py *)
Module BRA.
Import Py Pw.

Definition a_tilde : ascii := ascii_of_nat 227.
Definition e_acute : ascii := ascii_of_nat 233.
Definition e_circumflex : ascii := ascii_of_nat 234.

Definition COUNTRY_NAME : string := "Brazil".
Definition SOURCE_NAME : string :=
  "Ag" +:+ String e_circumflex "ncia Nacional de Energia El"
  +:+ String e_acute "trica (Brazil)".
Definition SOURCE_URL : string :=
  "http://www2.aneel.gov.br/aplicacoes/capacidadebrasil/capacidadebrasil.cfm".
Definition SOURCE_YEAR : Z := 2017.
Definition SAVE_CODE : string := "BRA".
Definition CAPACITY_CONVERSION_TO_MW : Q := 1 # 1000.
Definition ENCODING : string := "ISO-8859-1".

(** Lines 47-54: the specialized fuel type interpreter. *)
Definition fuel_types : gmap string string :=
  <["CGH" := "Hydro"]>
  (<["CGU" := "Wave and Tidal"]>
  (<["EOL" := "Wind"]>
  (<["PCH" := "Hydro"]>
  (<["UFV" := "Solar"]>
  (<["UHE" := "Hydro"]>
  (<["UTE" := "Thermal"]>
  (<["UTN" := "Nuclear"]> ∅))))))).

(** Lines 56-57: [fuel_types[fuel_string]]. *)
Definition standardize_fuel_BRA (fuel_string : string) : result string :=
  match fuel_types !! fuel_string with
  | Some fuel => Ok fuel
  | None => Raise KeyError
  end.

(** The marker of line 123, with its a-tilde as one Latin-1 character. *)
Definition unidentified_owner : string :=
  "n" +:+ String a_tilde "o identificado".

(** A latitude or longitude of a plant: a float of the coordinate file, or
    [pw.NO_DATA_NUMERIC]. *)
Inductive Coordinate : Type :=
| Degrees (q : Q)
| NO_DATA_NUMERIC.

Record LocationObject : Type := {
  loc_description : string;
  loc_latitude : Coordinate;
  loc_longitude : Coordinate
}.

(** The arguments of the [pw.PowerPlant] call of lines 150-152. *)
Record PowerPlant : Type := {
  plant_idnr : string;
  plant_name : string;
  plant_country : string;
  plant_location : LocationObject;
  plant_fuel : string;
  plant_capacity : Q;
  plant_source : string;
  plant_source_url : string;
  plant_cap_year : Z
}.

(** One [tr] of the plant table, by the texts that the loop reads from its
    cells: [cells[0]] and [cells[1]] through [font/a], [cells[2]],
    [cells[4]] and [cells[6]] through [font].  HTML parsing is outside the
    model; every text that the loop calls a method on is present. *)
Record TableRow : Type := {
  ceg_text : string;
  name_text : string;
  op_date_text : option string;
  capacity_text : string;
  owner_text : string
}.

(** The variables that the row loop assigns and that outlive an
    iteration. *)
Record State : Type := {
  plants_dictionary : list (string * PowerPlant);
  found_coordinates_count : Z;
  owner : string
}.

Definition initial : State :=
  {| plants_dictionary := [];
     found_coordinates_count := 0;
     owner := "" |}.

(** The keys of [fuel_types]. *)
Definition fuel_codes : list string :=
  ["CGH"; "CGU"; "EOL"; "PCH"; "UFV"; "UHE"; "UTE"; "UTN"].

(** What the specification says of every join: two plants of one name
    get the same result from the table. *)
Definition joined_by_name (plants : list PowerPlant) : Prop :=
  ∀ p q, p ∈ plants → q ∈ plants →
         plant_name p = plant_name q → plant_location p = plant_location q.

Section Script.
Context `{lib : Lib}.
(** [float] on text and [locale.atof] under pt_BR, [None] for ValueError *)
Context (float_of_text atof : string → option Q).

(** Lines 66-76: read in geolocation data. *)
Definition read_coordinates (csv : list (list string))
    : result (gmap string (Q * Q)) :=
  match csv with
  | [] => Raise StopIteration
  | _ :: rows =>
      for_each (λ (d : gmap string (Q * Q)) row,
        ceg_id ← index row 0;
        latitude_text ← index row 1;
        latitude ← float float_of_text (CText latitude_text);
        longitude_text ← index row 2;
        longitude ← float float_of_text (CText longitude_text);
        Ok (<[ceg_id := (latitude, longitude)]> d))
        ∅ rows
  end.

Section Loop.
Variable plant_coordinates : gmap string (Q * Q).

(** Lines 100-109: use CEG code to lookup coordinates. *)
Definition lookup_coordinates (ceg_code : string)
    : Coordinate * Coordinate * bool :=
  let ceg_code_short := slice ceg_code 0 16 in
  match plant_coordinates !! ceg_code_short with
  | Some coords => (Degrees coords.1, Degrees coords.2, true)
  | None => (NO_DATA_NUMERIC, NO_DATA_NUMERIC, false)
  end.

(** Lines 92-153: the body of the row loop. *)
Definition loop_body (st : State) (row : TableRow)
    : result (flow State) :=
  let ceg_code := strip (ceg_text row) in
  plant_id ← int (slice ceg_code (-11) (-5));
  fuel ← standardize_fuel_BRA (slice ceg_code 0 3);
  let '(latitude, longitude, found) := lookup_coordinates ceg_code in
  let count :=
    if found then (found_coordinates_count st + 1)%Z
    else found_coordinates_count st in
  let name := format_string (strip (name_text row)) NoEncoding in
  capacity ← float atof (CText (capacity_text row));
  let capacity := (CAPACITY_CONVERSION_TO_MW * capacity)%Q in
  let owner_description :=
    format_string (strip (owner_text row)) (Codec ENCODING) in
  if contains unidentified_owner owner_description then
    Ok (Break {| plants_dictionary := plants_dictionary st;
                 found_coordinates_count := count;
                 owner := NO_DATA_UNICODE |})
  else
    let idnr := make_id SAVE_CODE plant_id in
    let new_location :=
      {| loc_description := NO_DATA_UNICODE;
         loc_latitude := latitude;
         loc_longitude := longitude |} in
    let new_plant :=
      {| plant_idnr := idnr;
         plant_name := name;
         plant_country := COUNTRY_NAME;
         plant_location := new_location;
         plant_fuel := fuel;
         plant_capacity := capacity;
         plant_source := SOURCE_NAME;
         plant_source_url := SOURCE_URL;
         plant_cap_year := SOURCE_YEAR |} in
    Ok (Next {| plants_dictionary :=
                  dict_set (plants_dictionary st) idnr new_plant;
                found_coordinates_count := count;
                owner := owner_description |}).

(** Lines 90-153.  [rows] is [plant_table.findall("tr")[2:-1]]. *)
Definition run (rows : list TableRow) : result State :=
  for_each_break loop_body initial rows.
End Loop.

(** The location that the loop gives to a plant whose CEG code is
    [ceg_code], by the coordinate table. *)
Definition location_of (plant_coordinates : gmap string (Q * Q))
    (ceg_code : string) : LocationObject :=
  {| loc_description := NO_DATA_UNICODE;
     loc_latitude := (lookup_coordinates plant_coordinates ceg_code).1.1;
     loc_longitude := (lookup_coordinates plant_coordinates ceg_code).1.2 |}.

(** The rows at which line 123 finds the marker in the owner text. *)
Definition unidentified (row : TableRow) : bool :=
  contains unidentified_owner
    (format_string (strip (owner_text row)) (Codec ENCODING)).

(** The rows for which the test of line 102 succeeds. *)
Definition has_coordinates (plant_coordinates : gmap string (Q * Q))
    (row : TableRow) : Prop :=
  slice (strip (ceg_text row)) 0 16 ∈ dom plant_coordinates.

Global Instance has_coordinates_dec plant_coordinates row :
  Decision (has_coordinates plant_coordinates row) :=
  decide (slice (strip (ceg_text row)) 0 16 ∈ dom plant_coordinates).

(** The values of [fuel_types]. *)
Definition fuel_names : list string :=
  ["Hydro"; "Wave and Tidal"; "Wind"; "Solar"; "Thermal"; "Nuclear"].

(** What every record of the dictionary looks like: lines 147-153. *)
Definition well_formed_record (kv : string * PowerPlant) : Prop :=
  plant_idnr kv.2 = kv.1
  ∧ plant_fuel kv.2 ∈ fuel_names
  ∧ plant_country kv.2 = COUNTRY_NAME
  ∧ plant_source kv.2 = SOURCE_NAME
  ∧ plant_source_url kv.2 = SOURCE_URL
  ∧ plant_cap_year kv.2 = SOURCE_YEAR
  ∧ loc_description (plant_location kv.2) = NO_DATA_UNICODE
  ∧ (loc_latitude (plant_location kv.2) = NO_DATA_NUMERIC
     ↔ loc_longitude (plant_location kv.2) = NO_DATA_NUMERIC).

(** What the loop keeps true of the dictionary and the coordinate
    counter, by the number of rows read. *)
Definition kept (n : nat) (st : State) : Prop :=
  Forall well_formed_record (plants_dictionary st)
  ∧ NoDup (fst <$> plants_dictionary st)
  ∧ (length (plants_dictionary st) ≤ n)%nat
  ∧ (0 ≤ found_coordinates_count st ≤ Z.of_nat n)%Z.

(** A data row of the coordinate file that lines 71-74 read without an
    exception: three cells or more, the second and the third a float. *)
Definition readable_coordinates (row : list string) : bool :=
  match row with
  | _ :: latitude :: longitude :: _ =>
      bool_decide (is_Some (float_of_text latitude))
      && bool_decide (is_Some (float_of_text longitude))
  | _ => false
  end.

End Script.

End BRA.

(** ** utils/powerwatch_summary.py *)
Module Summary.
Import Py Pw.

(** A row of table [powerplants], by the columns that the queries name.
    [None] is SQL NULL.  [capacity_mw], the coordinates and the generation
    columns are REAL. *)
Record Plant : Type := {
  country : string;
  name : option string;
  pw_idnr : option string;
  capacity_mw : option Q;
  year_of_capacity_data : option Z;
  owner : option string;
  source : option string;
  url : option string;
  latitude : option Q;
  longitude : option Q;
  fuel1 : option string;
  fuel2 : option string;
  fuel3 : option string;
  fuel4 : option string;
  generation_gwh_2012 : option Q;
  generation_gwh_2013 : option Q;
  generation_gwh_2014 : option Q;
  generation_gwh_2015 : option Q;
  generation_gwh_2016 : option Q
}.

(** The values that a summary dict holds. *)
Inductive Value : Type :=
| VText (s : string)
| VInt (z : Z)
| VReal (q : Q)
| VNone.

(** Lines 14-68. *)
Definition summary_fieldnames : list string :=
  ["country"; "iso_code"; "count"; "total_capacity_gw"; "max_capacity_mw";
   "count_distinct_fuel"; "count_distinct_name"; "count_distinct_owner";
   "count_distinct_source";
   "count_fuel_coal"; "capacity_gw_fuel_coal";
   "count_fuel_gas"; "capacity_gw_fuel_gas";
   "count_fuel_oil"; "capacity_gw_fuel_oil";
   "count_fuel_petcoke"; "capacity_gw_fuel_petcoke";
   "count_fuel_hydro"; "capacity_gw_fuel_hydro";
   "count_fuel_nuclear"; "capacity_gw_fuel_nuclear";
   "count_fuel_wind"; "capacity_gw_fuel_wind";
   "count_fuel_solar"; "capacity_gw_fuel_solar";
   "count_fuel_geothermal"; "capacity_gw_fuel_geothermal";
   "count_fuel_biomass"; "capacity_gw_fuel_biomass";
   "count_fuel_cogeneration"; "capacity_gw_fuel_cogeneration";
   "count_fuel_waste"; "capacity_gw_fuel_waste";
   "count_fuel_wave_and_tidal"; "capacity_gw_fuel_wave_and_tidal";
   "count_fuel_other"; "capacity_gw_fuel_other";
   "count_null_name"; "count_null_pw_idnr"; "count_null_capacity_mw";
   "count_null_year_of_capacity_data"; "count_null_owner";
   "count_null_source"; "count_null_url"; "count_null_latitude";
   "count_null_longitude"; "count_null_fuel";
   "count_null_generation_gwh_all";
   "count_generation_gwh_2012"; "count_generation_gwh_2013";
   "count_generation_gwh_2014"; "count_generation_gwh_2015";
   "count_generation_gwh_2016"].

(** *** SQL aggregates over the rows that a WHERE clause keeps *)

Definition COUNT (rows : list Plant) : Z := Z.of_nat (length rows).

(** SUM skips NULL and is NULL when nothing is left. *)
Definition SUM (values : list (option Q)) : option Q :=
  foldl (λ acc v,
           match v, acc with
           | Some q, Some a => Some (a + q)%Q
           | Some q, None => Some q
           | None, _ => acc
           end) None values.

Definition Qmax (a b : Q) : Q := if Qle_bool a b then b else a.

Definition MAX (values : list (option Q)) : option Q :=
  foldl (λ acc v,
           match v, acc with
           | Some q, Some a => Some (Qmax a q)
           | Some q, None => Some q
           | None, _ => acc
           end) None values.

(** The plain sum of a column, NULL counting for nothing: what [SUM] stands
    for once its NULL result is read as zero. *)
Definition total (values : list (option Q)) : Q :=
  foldr (λ v acc, (default 0 v + acc)%Q) 0%Q values.

(** The capacities of rows, each taken as many times as [weight] says. *)
Definition weighted_total {A : Type} (capacity : A → option Q)
    (weight : A → nat) (rows : list A) : Q :=
  foldr (λ p acc,
           (default 0 (capacity p) * inject_Z (Z.of_nat (weight p)) + acc)%Q)
    0%Q rows.

(** COUNT(DISTINCT x) WHERE x IS NOT NULL. *)
Definition COUNT_DISTINCT (values : list (option string)) : Z :=
  Z.of_nat (length (remove_dups (omap id values))).

Definition is_null {A : Type} (v : option A) : bool :=
  match v with None => true | Some _ => false end.



(** [WHERE (country=?)] *)
Definition of_country (c : string) (db : list Plant) : list Plant :=
  filter (λ p, country p = c) db.

(** [fuel1="f" OR fuel2="f" OR fuel3="f" OR fuel4="f"] *)
Definition burns (fuel : string) (p : Plant) : bool :=
  bool_decide (fuel1 p = Some fuel) || bool_decide (fuel2 p = Some fuel)
  || bool_decide (fuel3 p = Some fuel) || bool_decide (fuel4 p = Some fuel).

(** *** String helpers of line 134 *)

Definition lower_char (c : ascii) : ascii :=
  let n := nat_of_ascii c in
  if (65 <=? n)%nat && (n <=? 90)%nat then ascii_of_nat (n + 32) else c.

Definition upper_char (c : ascii) : ascii :=
  let n := nat_of_ascii c in
  if (97 <=? n)%nat && (n <=? 122)%nat then ascii_of_nat (n - 32) else c.

Fixpoint map_string (f : ascii → ascii) (s : string) : string :=
  match s with
  | EmptyString => EmptyString
  | String c s' => String (f c) (map_string f s')
  end.

Definition lower : string → string := map_string lower_char.
Definition upper : string → string := map_string upper_char.

(** [s.split()]: the maximal runs of non-blank characters. *)
Fixpoint split_go (word : string) (s : string) : list string :=
  match s with
  | EmptyString =>
      match word with EmptyString => [] | _ => [String.rev word] end
  | String c s' =>
      if is_space c then
        match word with
        | EmptyString => split_go EmptyString s'
        | _ => String.rev word :: split_go EmptyString s'
        end
      else split_go (String c word) s'
  end.

Definition split (s : string) : list string := split_go EmptyString s.

Fixpoint join (sep : string) (parts : list string) : string :=
  match parts with
  | [] => EmptyString
  | [w] => w
  | w :: rest => w +:+ sep +:+ join sep rest
  end.

Definition fuel_column_name (fuel : string) : string :=
  join "_" (split (lower fuel)).

(** The columns of [count_null_list], lines 168-170. *)
Definition count_null_list : list (string * (Plant → bool)) :=
  [("name", λ p, is_null (name p));
   ("pw_idnr", λ p, is_null (pw_idnr p));
   ("capacity_mw", λ p, is_null (capacity_mw p));
   ("year_of_capacity_data", λ p, is_null (year_of_capacity_data p));
   ("owner", λ p, is_null (owner p));
   ("source", λ p, is_null (source p));
   ("url", λ p, is_null (url p));
   ("latitude", λ p, is_null (latitude p));
   ("longitude", λ p, is_null (longitude p))].

Definition count_distinct_list : list (string * (Plant → option string)) :=
  [("name", name); ("owner", owner); ("source", source)].

Definition generation_years : list (string * (Plant → option Q)) :=
  [("2012", generation_gwh_2012); ("2013", generation_gwh_2013);
   ("2014", generation_gwh_2014); ("2015", generation_gwh_2015);
   ("2016", generation_gwh_2016)].

Definition count_where (f : Plant → bool) (rows : list Plant) : Z :=
  Z.of_nat (length (filter (λ p, f p = true) rows)).

(** The key of line 223: codes are sorted by the country name they stand
    for. *)
Definition by_country_name (countries : gmap string string)
    (k1 k2 : string) : Prop :=
  String.leb (default "" (countries !! k1)) (default "" (countries !! k2))
  = true.

Global Instance by_country_name_dec countries :
  RelDecision (by_country_name countries) :=
  λ k1 k2,
    decide (String.leb (default "" (countries !! k1))
              (default "" (countries !! k2)) = true).

Section Script.
Context `{lib : Lib}.

(** Lines 133-156, one turn of the loop over [fuel_list]. *)
Definition fuel_capacity_gw (rows : list Plant) (fuel : string) : Value :=
  match SUM (capacity_mw <$> filter (λ p, burns fuel p = true) rows) with
  | None => VInt 0
  | Some fuel_capacity_mw => VReal (fuel_capacity_mw / 1000)
  end.

Definition fuel_summary (rows : list Plant)
    (summary : gmap string Value) (fuel : string) : gmap string Value :=
  let fuel_column_name := fuel_column_name fuel in
  let summary :=
    <["count_fuel_" +:+ fuel_column_name :=
        VInt (count_where (burns fuel) rows)]> summary in
  <["capacity_gw_fuel_" +:+ fuel_column_name :=
      fuel_capacity_gw rows fuel]> summary.

(** Lines 70-208.  [db] is the table [powerplants]; [country] is
    [quotable] (see there for the statement of lines 115-128). *)
Definition country_summary (db : list Plant) (country iso_code : string)
    : result (gmap string Value) :=
  let rows := of_country country db in
  let summary : gmap string Value :=
    <["iso_code" := VText iso_code]> (<["country" := VText country]> ∅) in
  let summary := <["count" := VInt (COUNT rows)]> summary in
  if decide (COUNT rows = 0%Z) then Ok summary
  else
    match SUM (capacity_mw <$> rows) with
    | None => Raise TypeError
    | Some total_capacity_mw =>
        let summary :=
          <["total_capacity_gw" := VReal (total_capacity_mw / 1000)]>
            summary in
        let summary :=
          <["max_capacity_mw" :=
              match MAX (capacity_mw <$> rows) with
              | Some q => VReal q
              | None => VNone
              end]> summary in
        let summary :=
          <["count_distinct_fuel" :=
              VInt (COUNT_DISTINCT
                      ((fuel1 <$> rows) ++ (fuel2 <$> rows)
                       ++ (fuel3 <$> rows) ++ (fuel4 <$> rows)))]>
            summary in
        let summary :=
          foldl (fuel_summary rows) summary fuel_thesaurus_keys in
        let summary :=
          foldl (λ (summary : gmap string Value) field,
                   <["count_distinct_" +:+ field.1 :=
                       VInt (COUNT_DISTINCT (field.2 <$> rows))]> summary)
            summary count_distinct_list in
        let summary :=
          foldl (λ (summary : gmap string Value) field,
                   <["count_null_" +:+ field.1 :=
                       VInt (count_where field.2 rows)]> summary)
            summary count_null_list in
        let summary :=
          <["count_null_fuel" :=
              VInt (count_where
                      (λ p, is_null (fuel1 p) && is_null (fuel2 p)
                            && is_null (fuel3 p) && is_null (fuel4 p))
                      rows)]> summary in
        let summary :=
          <["count_null_generation_gwh_all" :=
              VInt (count_where
                      (λ p, forallb (λ year, is_null (year.2 p))
                              generation_years) rows)]> summary in
        let summary :=
          foldl (λ (summary : gmap string Value) year,
                   <["count_generation_gwh_" +:+ year.1 :=
                       VInt (count_where (λ p, negb (is_null (year.2 p)))
                               rows)]> summary)
            summary generation_years in
        Ok summary
    end.

(** [csv.DictWriter(fout, fieldnames).writerow(summary)]: a key outside
    [fieldnames] raises ValueError; a field without a key is written as
    the empty rest value, [None] here. *)
Definition writerow (fieldnames : list string)
    (summary : gmap string Value) : result (list (option Value)) :=
  if decide (dom summary ⊆ list_to_set fieldnames)
  then Ok ((λ field, summary !! field) <$> fieldnames)
  else Raise ValueError.

(** Lines 220-228: prepare list of country codes.  [countries] maps an
    iso code to the country name; [requested] is [args.country]. *)
Definition prepare_codes (countries : gmap string string)
    (requested : option (list string)) : result (list string) :=
  match requested with
  | None =>
      Ok (merge_sort (by_country_name countries)
            (elements (dom countries)))
  | Some names =>
      let codes := upper <$> names in
      for_each (λ (_ : unit) iso_code,
                  if decide (iso_code ∈ dom countries) then Ok ()
                  else Raise ValueError) () codes
      ≫= λ _, Ok codes
  end.

(** Lines 234-236: summarize country-level data. *)
Definition summarize (db : list Plant) (countries : gmap string string)
    (codes : list string) : result (gmap string (gmap string Value)) :=
  for_each (λ (d : gmap string (gmap string Value)) iso_code,
              match countries !! iso_code with
              | None => Raise KeyError
              | Some country =>
                  summary ← country_summary db country iso_code;
                  Ok (<[iso_code := summary]> d)
              end) ∅ codes.

(** Lines 239-243: write summary output.  The result is the sequence of
    rows written after the header. *)
Definition write_rows (country_summaries : gmap string (gmap string Value))
    (codes : list string) : result (list (list (option Value))) :=
  for_each (λ (written : list (list (option Value))) iso_code,
              match country_summaries !! iso_code with
              | None => Raise KeyError
              | Some summary =>
                  row ← writerow summary_fieldnames summary;
                  Ok (written ++ [row])%list
              end) [] codes.

Definition write_summaries (db : list Plant)
    (countries : gmap string string) (codes : list string)
    : result (list (list (option Value))) :=
  country_summaries ← summarize db countries codes;
  write_rows country_summaries codes.


(** The summary of a country without a record: lines 88-99. *)
Definition minimal_summary (country iso_code : string) : gmap string Value :=
  <["count" := VInt 0]>
    (<["iso_code" := VText iso_code]> (<["country" := VText country]> ∅)).

(** The row written for it: the three fields and fifty empty ones. *)
Definition minimal_row (country iso_code : string) : list (option Value) :=
  [Some (VText country); Some (VText iso_code); Some (VInt 0)]
  ++ replicate 50 None.

(** The number that a summary entry stands for, an absent one for none. *)
Definition as_Q (v : option Value) : Q :=
  match v with
  | Some (VReal q) => q
  | Some (VInt z) => inject_Z z
  | _ => 0
  end.

(** The sum over the fuel categories of the per-category capacity of a
    summary, and what the specification says of it. *)
Definition fuel_capacity_sum (summary : gmap string Value) : Q :=
  foldr (λ fuel acc,
           (as_Q (summary !! ("capacity_gw_fuel_" +:+ fuel_column_name fuel))
            + acc)%Q)
    0%Q fuel_thesaurus_keys.

Definition capacity_consistent (summary : gmap string Value) : Prop :=
  (fuel_capacity_sum summary == as_Q (summary !! "total_capacity_gw"))%Q.

(** The number of fuel categories under which a row is counted. *)
Definition categories_of (p : Plant) : nat :=
  length (filter (λ fuel, burns fuel p = true) fuel_thesaurus_keys).

End Script.

End Summary.

(** ** The library members, made concrete for the worked examples

    The theorems below that hold for every implementation of [Pw.Lib] are
    stated for every implementation.  Evaluating a script on a concrete input
    needs one implementation; this is it. *)
Module PwModel.
Import Py Pw.

(** Modelled from the spec: [pw.format_string], which is not among the
    sources.  The spec describes the normalization of names as whitespace,
    case and diacritic folding.  Only the surrounding whitespace is removed
    here: build_database_ARG.py compares a result with the upper-case word
    AISLADO and build_database_BRA.py searches a result for the lower-case
    accented marker of its line 123, so the function leaves the case and
    the accents of those texts as they are. *)
Definition format_string (value : string) (encoding : Encoding) : string :=
  strip value.

(** Modelled from the spec: the canonical fuel vocabulary of
    [pw.make_fuel_thesaurus()], which is not among the sources, taken in the
    order in which [summary_fieldnames] lists the fuel columns. *)
Definition fuel_thesaurus_keys : list string :=
  ["Coal"; "Gas"; "Oil"; "Petcoke"; "Hydro"; "Nuclear"; "Wind"; "Solar";
   "Geothermal"; "Biomass"; "Cogeneration"; "Waste"; "Wave and Tidal";
   "Other"].

(** Modelled from the spec: [pw.standardize_fuel], which is not among the
    sources: a raw label is mapped onto the canonical fuel whose name it
    spells, whatever its case; a label that spells none gives the empty
    set. *)
Definition standardize_fuel (label : string) : gset string :=
  list_to_set
    (filter (λ fuel, Summary.upper fuel = Summary.upper (strip label))
       fuel_thesaurus_keys).

(** Modelled from the spec: [pw.make_id], which is not among the sources:
    identifier = concat(source_code, counter). *)
Definition make_id (code : string) (number : Z) : string :=
  code +:+ pretty number.

(** Modelled from the spec: the no-data sentinels of [pw], which are not
    among the sources: an unset text and an empty fuel set. *)
Definition NO_DATA_UNICODE : string := "".
Definition NO_DATA_SET : gset string := ∅.

Definition lib : Lib :=
  {| Pw.format_string := format_string;
     Pw.standardize_fuel := standardize_fuel;
     Pw.fuel_thesaurus_keys := fuel_thesaurus_keys;
     Pw.make_id := make_id;
     Pw.NO_DATA_UNICODE := NO_DATA_UNICODE;
     Pw.NO_DATA_SET := NO_DATA_SET |}.

End PwModel.

(** ** Concrete inputs used by the examples *)
Module Inputs.
Import Py.

Definition arg_row (owner name fuel grid : string) (capacity generation : Cell)
    : ARG.RawRow :=
  {| ARG.rv_owner := owner; ARG.rv_name := name; ARG.rv_fuel := fuel;
     ARG.rv_grid := grid; ARG.rv_capacity := capacity;
     ARG.rv_generation := generation |}.

(** A plant-definition row, an additional unit of it, a second plant, and
    the row without fuel that ends the table. *)
Definition central_a : ARG.RawRow :=
  arg_row "EMPRESA UNO" "CENTRAL A" "GAS" "SADI" (CNumber 1000) (CNumber 500).
Definition unit_of_a : ARG.RawRow :=
  arg_row "" "" "GAS" "SADI" (CNumber 500) (CNumber 200).
Definition second_unit_of_a : ARG.RawRow :=
  arg_row "" "" "OIL" "SADI" (CText "250") (CNumber 100).
Definition central_b : ARG.RawRow :=
  arg_row "EMPRESA DOS" "CENTRAL B" "HYDRO" "SADI" (CNumber 2000)
    (CNumber 1000).
Definition end_of_table : ARG.RawRow :=
  arg_row "" "" "" "" (CText "") (CText "").

(** An additional unit whose capacity cell is not a number. *)
Definition unit_unreadable : ARG.RawRow :=
  arg_row "" "" "GAS" "SADI" (CText "n/a") (CNumber 200).
(** A plant-definition row whose numeric cells are not numbers. *)
Definition central_unreadable : ARG.RawRow :=
  arg_row "EMPRESA TRES" "CENTRAL C" "GAS" "SADI" (CText "n/a") (CText "").
(** A named generator that is not connected to the grid. *)
Definition islanded : ARG.RawRow :=
  arg_row "EMPRESA SUR" "CENTRAL AISLADA" "OIL" "AISLADO" (CNumber 300)
    (CNumber 100).

Definition arg_run := ARG.run (lib := PwModel.lib) decimal_float.

Definition bra_row (ceg name capacity owner : string) : BRA.TableRow :=
  {| BRA.ceg_text := ceg; BRA.name_text := name;
     BRA.op_date_text := Some "01/01/2000";
     BRA.capacity_text := capacity; BRA.owner_text := owner |}.

Definition roca_grande : BRA.TableRow :=
  bra_row "UHE.PH.MG.002535-9.01" "Roca Grande" "1000" "100% para Empresa Um".
Definition vento_norte : BRA.TableRow :=
  bra_row "EOL.CV.BA.000017-0.01" "Vento Norte" "2000" "100% para Empresa Dois".
(** The same name under another CEG code. *)
Definition roca_grande_pch : BRA.TableRow :=
  bra_row "PCH.PH.SC.000321-4.01" "Roca Grande" "3000" "100% para Empresa Um".
Definition sem_dono : BRA.TableRow :=
  bra_row "UTE.GN.SP.000044-1.01" "Termo Sul" "5000"
    (BRA.unidentified_owner +:+ " ").
(** A CEG code whose prefix is not a key of [fuel_types]. *)
Definition unknown_prefix : BRA.TableRow :=
  bra_row "XYZ.PH.MG.000099-9.01" "Usina Nova" "1000" "100% para Empresa Um".

(** The same prefix with a plant number that does not read. *)
Definition unknown_prefix_unreadable : BRA.TableRow :=
  bra_row "XYZ.PH.MG.00A099-9.01" "Usina Nova" "1000" "100% para Empresa Um".

Definition coordinates : gmap string (Q * Q) :=
  <["UHE.PH.MG.002535" := (-(20 # 1), -(44 # 1))%Q]> ∅.

Definition bra_run :=
  BRA.run (lib := PwModel.lib) decimal_float coordinates.

Definition bra_identifiers (st : BRA.State) : list string :=
  fst <$> BRA.plants_dictionary st.

Definition plant (country : string) (capacity : Q)
    (fuel1 fuel2 : option string) : Summary.Plant :=
  {| Summary.country := country; Summary.name := Some "Plant";
     Summary.pw_idnr := Some "XXX1"; Summary.capacity_mw := Some capacity;
     Summary.year_of_capacity_data := Some 2015%Z;
     Summary.owner := None; Summary.source := Some "Source";
     Summary.url := None; Summary.latitude := None;
     Summary.longitude := None;
     Summary.fuel1 := fuel1; Summary.fuel2 := fuel2;
     Summary.fuel3 := None; Summary.fuel4 := None;
     Summary.generation_gwh_2012 := None;
     Summary.generation_gwh_2013 := None;
     Summary.generation_gwh_2014 := None;
     Summary.generation_gwh_2015 := None;
     Summary.generation_gwh_2016 := None |}.

Definition countries : gmap string string :=
  <["ARG" := "Argentina"]> (<["BRA" := "Brazil"]> ∅).

(** One Argentine plant that burns gas and oil; nothing in Brazil. *)
Definition dual_fuel_db : list Summary.Plant :=
  [plant "Argentina" 1000 (Some "Gas") (Some "Oil")].


(** One Argentine plant whose four fuel columns are NULL. *)
Definition no_fuel_db : list Summary.Plant :=
  [plant "Argentina" 1000 None None].

(** A location file of one plant, and a plant of that name. *)
Definition location_csv : list (list string) :=
  [["name"; "latitude"; "longitude"]; [" CENTRAL A "; "-34.6"; "-58.4"]].

(** A commissioning-year file of another plant. *)
Definition year_csv : list (list string) :=
  [["name"; "year"]; ["CENTRAL B"; "1998"]].

Definition arg_plant : ARG.PowerPlant :=
  {| ARG.plant_idnr := "ARG1"; ARG.plant_name := "CENTRAL A";
     ARG.plant_owner := "EMPRESA UNO"; ARG.plant_fuel := {["Gas"]};
     ARG.plant_country := ARG.COUNTRY_NAME; ARG.plant_capacity := 1;
     ARG.plant_cap_year := ARG.YEAR_OF_DATA;
     ARG.plant_source := ARG.SOURCE_NAME;
     ARG.plant_source_url := ARG.SOURCE_URL;
     ARG.plant_generation :=
       {| ARG.gwh := 1; ARG.start_date := ARG.gen_start;
          ARG.end_date := ARG.gen_stop; ARG.gen_source := ARG.SOURCE_NAME |};
     ARG.location := None; ARG.commissioning_year := None |}.

Definition single_fuel_db : list Summary.Plant :=
  [plant "Argentina" 1000 (Some "Gas") None;
   plant "Argentina" 500 (Some "Hydro") None].

End Inputs.

(** * Properties *)

(** ** Loops and dictionaries *)
Section PyFacts.
Import Py.
Context {S A : Type}.

(** A property of the state and of the rows consumed so far, kept by every
    turn of a loop, holds when the loop ends. *)
Lemma for_each_invariant (P : list A → S → Prop) (body : S → A → result S) :
  (∀ done st x st', P done st → body st x = Ok st' → P (done ++ [x]) st') →
  ∀ xs st0 st', P [] st0 → for_each body st0 xs = Ok st' → P xs st'.
Proof.
  intros Hstep xs st0 st' H0.
  change xs with ([] ++ xs) at 2.
  generalize dependent st0. generalize (@nil A) as done.
  induction xs as [|x xs IH]; intros done st0 H0 Hrun; simpl in Hrun.
  - inversion Hrun; subst. by rewrite app_nil_r.
  - destruct (body st0 x) as [st1|e] eqn:Hb; [|discriminate].
    replace (done ++ x :: xs) with ((done ++ [x]) ++ xs)
      by (by rewrite <- app_assoc).
    eapply IH; [|exact Hrun]. eauto.
Qed.

(** The first turn that raises ends the loop with its exception. *)
Lemma for_each_raise (body : S → A → result S) st x xs e :
  body st x = Raise e → for_each body st (x :: xs) = Raise e.
Proof. intros H. simpl. by rewrite H. Qed.

Lemma for_each_break_raise (body : S → A → result (flow S)) st x xs e :
  body st x = Raise e → for_each_break body st (x :: xs) = Raise e.
Proof. intros H. simpl. by rewrite H. Qed.

(** [break] leaves the remaining rows unread. *)
Lemma for_each_break_stops (body : S → A → result (flow S)) st x xs st' :
  body st x = Ok (Break st') → for_each_break body st (x :: xs) = Ok st'.
Proof. intros H. simpl. by rewrite H. Qed.
End PyFacts.

Section DictFacts.
Import Py.
Context {V : Type}.

(** Assigning a key that the dictionary does not hold adds it last. *)
Lemma dict_set_fresh (d : list (string * V)) k v :
  k ∉ (fst <$> d) → dict_set d k v = d ++ [(k, v)].
Proof.
  induction d as [|[k' v'] d IH]; simpl; [done|].
  intros Hk. apply not_elem_of_cons in Hk as [Hne Hk].
  destruct (decide (k' = k)); [congruence|]. by rewrite IH.
Qed.

(** Assignment never changes the number of keys by more than one, and
    never removes a key. *)
Lemma dict_set_keys (d : list (string * V)) k v :
  fst <$> dict_set d k v
  = if decide (k ∈ (fst <$> d)) then fst <$> d else (fst <$> d) ++ [k].
Proof.
  induction d as [|[k' v'] d IH].
  - done.
  - cbn [dict_set]. destruct (decide (k' = k)) as [->|Hne].
    + rewrite !fmap_cons. cbn [fst].
      rewrite decide_True; [done|left].
    + rewrite !fmap_cons, IH. cbn [fst].
      destruct (decide (k ∈ fst <$> d)) as [Hin|Hout].
      * rewrite decide_True; [done|by right].
      * rewrite decide_False; [done|].
        intros [->|?]%elem_of_cons; done.
Qed.
(** Assignment keeps the keys pairwise distinct. *)
Lemma dict_set_NoDup (d : list (string * V)) k v :
  NoDup (fst <$> d) → NoDup (fst <$> dict_set d k v).
Proof.
  intros Hd. rewrite dict_set_keys. destruct (decide _) as [Hin|Hout];
    [done|].
  apply NoDup_app. split; [done|]. split; [|apply NoDup_singleton].
  intros x Hx ->%list_elem_of_singleton. done.
Qed.

(** Assignment adds at most one entry. *)
Lemma dict_set_length (d : list (string * V)) k v :
  (length (dict_set d k v) ≤ S (length d))%nat.
Proof.
  rewrite <- (length_fmap fst (dict_set d k v)), dict_set_keys.
  destruct (decide _); rewrite ?length_app, !length_fmap; simpl; lia.
Qed.

(** A property of every entry that the assigned entry has is kept. *)
Lemma dict_set_Forall_record (P : string * V → Prop) d k v :
  Forall P d → P (k, v) → Forall P (dict_set d k v).
Proof.
  intros Hd Hkv. induction Hd as [|[k' v'] d Hx Hd IH]; simpl.
  - by constructor.
  - destruct (decide (k' = k)); by constructor.
Qed.
End DictFacts.

(** ** build_database_ARG.py: the row loop *)
Section ARGLoop.
Import Py Pw ARG.
Context `{lib : Lib} (float_of_text : string → option Q).

Abbreviation loop_body := (ARG.loop_body float_of_text).
Abbreviation run := (ARG.run float_of_text).

(** A row of the loop whose grid is AISLADO leaves every loop variable,
    the dictionary and the counter as they were. *)
Lemma loop_body_islanded st rv :
  format_string (rv_grid rv) NoEncoding = "AISLADO" →
  loop_body st rv = Ok st.
Proof. intros H. unfold ARG.loop_body. by rewrite decide_True. Qed.

(** A row of the loop that starts a group never raises, whatever its
    numeric cells hold. *)
Lemma loop_body_starts_group st rv :
  starts_group rv = true →
  loop_body st rv
  = Ok (start_group float_of_text
          (if truthy (current_plant_name st) then add_plant st else st)
          rv (format_string (rv_name rv) NoEncoding)
          (format_string (rv_fuel rv) NoEncoding)).
Proof.
  unfold starts_group, ARG.loop_body. intros H.
  apply andb_true_iff in H as [H Hname].
  apply andb_true_iff in H as [Hgrid Hfuel].
  apply negb_true_iff, bool_decide_eq_false in Hgrid.
  rewrite decide_False by done. by rewrite Hfuel, Hname.
Qed.

(** In a group-start row an unreadable capacity cell counts as zero and
    is reported. *)
Lemma start_group_unreadable_capacity st rv row_name row_fuel e :
  float float_of_text (rv_capacity rv) = Raise e →
  current_capacity_sum (start_group float_of_text st rv row_name row_fuel)
  = 0%Q
  ∧ CantReadCapacity row_name
    ∈ printed (start_group float_of_text st rv row_name row_fuel).
Proof.
  intros H. unfold start_group. rewrite H. simpl. split; [done|].
  apply elem_of_app. right. left.
Qed.

(** An additional-unit row with an unreadable numeric cell raises. *)
Lemma add_unit_unreadable st rv row_fuel e :
  float float_of_text (rv_capacity rv) = Raise e →
  add_unit float_of_text st rv row_fuel = Raise e.
Proof. intros H. unfold add_unit. by rewrite H. Qed.

Section Counter.
Hypothesis make_id_inj : Inj (=) (=) (make_id SAVE_CODE).

Lemma counted_add_plant st :
  counted st →
  counted (add_plant st)
  ∧ identifiers (add_plant st)
    = identifiers st ++ [make_id SAVE_CODE (count st)].
Proof using make_id_inj.
  intros [Hpos Hids]. unfold counted, identifiers in *.
  assert (Hfresh : make_id SAVE_CODE (count st)
                   ∉ fst <$> plants_dictionary st).
  { rewrite Hids. intros Hin%list_elem_of_fmap_inj_2; [|done].
    apply elem_of_seqZ in Hin. lia. }
  assert (Hkeys : fst <$> plants_dictionary (add_plant st)
                  = (fst <$> plants_dictionary st)
                    ++ [make_id SAVE_CODE (count st)]).
  { cbn [add_plant plants_dictionary]. rewrite dict_set_keys.
    by rewrite decide_False. }
  split; [|done]. split; [cbn [add_plant count]; lia|].
  rewrite Hkeys, Hids. cbn [add_plant count].
  replace (count st + 1 - 1)%Z with ((count st - 1) + 1)%Z by lia.
  rewrite seqZ_app by lia. rewrite fmap_app.
  replace (1 + (count st - 1))%Z with (count st) by lia. done.
Qed.


(** One turn of the loop keeps [counted]. *)
Lemma loop_body_counted st rv st' :
  counted st → loop_body st rv = Ok st' → counted st'.
Proof using make_id_inj.
  intros Hc. pose proof (counted_add_plant st Hc) as [Hc' _].
  unfold ARG.loop_body.
  destruct (decide _); [by intros [= <-]|].
  destruct (truthy (format_string (rv_fuel rv) NoEncoding)).
  - destruct (truthy (format_string (rv_name rv) NoEncoding)).
    + intros [= <-]. by destruct (truthy (current_plant_name st)).
    + unfold add_unit.
      destruct (float float_of_text (rv_capacity rv)); [|discriminate].
      destruct (float float_of_text (rv_generation rv)); [|discriminate].
      simpl. by intros [= <-].
  - destruct (truthy (current_plant_name st)); by intros [= <-].
Qed.

(** One turn of the loop keeps the balance between the groups started
    and the groups emitted or still open. *)
Lemma loop_body_balance st rv st' :
  truthy NO_DATA_UNICODE = false →
  counted st → loop_body st rv = Ok st' →
  length (identifiers st') + open_groups st'
  = length (identifiers st) + open_groups st
    + (if starts_group rv then 1 else 0).
Proof using make_id_inj.
  intros Hnodata Hc. unfold ARG.loop_body, starts_group.
  pose proof (counted_add_plant st Hc) as [_ Hids].
  destruct (decide (format_string (rv_grid rv) NoEncoding = "AISLADO"))
    as [Hgrid|Hgrid].
  { intros [= <-]. rewrite bool_decide_eq_true_2 by done. simpl. lia. }
  rewrite bool_decide_eq_false_2 by done. simpl.
  destruct (truthy (format_string (rv_fuel rv) NoEncoding)) eqn:Hfuel;
    simpl.
  - destruct (truthy (format_string (rv_name rv) NoEncoding)) eqn:Hname.
    + intros [= <-]. unfold open_groups at 1.
      cbn [start_group current_plant_name]. rewrite Hname.
      unfold identifiers in *. cbn [start_group plants_dictionary].
      unfold open_groups.
      destruct (truthy (current_plant_name st)) eqn:Hopen.
      * rewrite Hids, length_app. simpl. lia.
      * lia.
    + unfold add_unit.
      destruct (float float_of_text (rv_capacity rv)); [|discriminate].
      destruct (float float_of_text (rv_generation rv)); [|discriminate].
      simpl. intros [= <-]. unfold open_groups, identifiers. simpl. lia.
  - unfold open_groups.
    destruct (truthy (current_plant_name st)) eqn:Hopen.
    + intros [= <-]. unfold identifiers in *.
      cbn [reset plants_dictionary current_plant_name].
      rewrite Hids, length_app, Hnodata. simpl. lia.
    + intros [= <-]. rewrite Hopen. lia.
Qed.


(** The whole run: every group-start row of the loop, and the first
    row when it has a name, is either in the dictionary or still the
    open group when the rows run out. *)
Lemma run_balance rv0 rest st :
  truthy NO_DATA_UNICODE = false →
  run (rv0 :: rest) = Ok st →
  length (identifiers st) + open_groups st
  = (if truthy (format_string (rv_name rv0) DefaultEncoding)
     then 1 else 0)
    + length (filter (λ rv, starts_group rv = true) rest).
Proof using make_id_inj.
  intros Hnodata. unfold ARG.run, first_row.
  destruct (float float_of_text (rv_capacity rv0)) as [c|]; [|discriminate].
  destruct (float float_of_text (rv_generation rv0)) as [g|];
    [|discriminate].
  simpl. intros Hrun.
  apply (for_each_invariant
           (λ done st,
              counted st
              ∧ length (identifiers st) + open_groups st
                = (if truthy (format_string (rv_name rv0) DefaultEncoding)
                   then 1 else 0)
                  + length (filter (λ rv, starts_group rv = true) done))
           loop_body) in Hrun.
  - by destruct Hrun.
  - intros done st0 x st1 [Hc Hbal] Hb. split.
    + by eapply loop_body_counted.
    + rewrite (loop_body_balance st0 x st1 Hnodata Hc Hb), Hbal.
      rewrite filter_app, length_app.
      destruct (starts_group x) eqn:Hx.
      * rewrite filter_cons_True by done. simpl. lia.
      * rewrite filter_cons_False by (by rewrite Hx). simpl. lia.
  - split; [split; simpl; [lia|done]|]. unfold open_groups. simpl. lia.
Qed.
End Counter.
End ARGLoop.

(** ** build_database_ARG.py: the claims about the row loop *)
Section ARGClaims.
Import Py Pw ARG Inputs.

(** The identifiers of the spec model are injective in the counter. *)
Lemma model_make_id_inj code : Inj (=) (=) (PwModel.make_id code).
Proof.
  intros m n H. unfold PwModel.make_id in H.
  apply (inj (String.app code)) in H. by apply (inj pretty) in H.
Qed.

(** C1.  The claim says that every group started by a name-bearing,
    fuel-bearing, non-islanded row is emitted exactly once, also the group
    still open when the input ends, so that the dictionary has as many
    records as there are such rows.  The script has no finalization after
    the loop: on two plant-definition rows and nothing else, the first
    plant is in the dictionary and the second is left in the loop
    variables, so one record stands for two group-start rows. *)
Theorem C1_open_group_at_end_of_input_is_not_emitted :
  match arg_run [central_a; central_b] with
  | Ok st =>
      ((λ kv, (kv.1, plant_name kv.2)) <$> plants_dictionary st)
      = [("ARG1", "CENTRAL A")]
      ∧ current_plant_name st = "CENTRAL B"
      ∧ open_groups st = 1
  | Raise _ => False
  end
  ∧ length (filter (λ rv, starts_group (lib := PwModel.lib) rv = true)
              [central_a; central_b]) = 2.
Proof. vm_compute. repeat split. Qed.

(** C2.  The claim says that an unreadable capacity or generation cell
    counts as zero and never ends the loop, on a group-start row, on an
    additional-unit row and on the first data row.  Only the group-start
    branch has the try/except blocks: an additional-unit row with an
    unreadable cell raises ValueError, and so does the first data row,
    while the same cells on a group-start row are reported and counted as
    zero. *)
Theorem C2_unreadable_cell_raises_outside_group_start :
  arg_run [central_a; unit_unreadable; central_b; end_of_table]
  = Raise ValueError
  ∧ arg_run [central_unreadable; central_b; end_of_table] = Raise ValueError
  ∧ match arg_run [central_a; central_unreadable; end_of_table] with
    | Ok st =>
        ((λ kv, (plant_name kv.2, plant_capacity kv.2, gwh (plant_generation kv.2)))
           <$> plants_dictionary st)
        = [("CENTRAL A", (1000 * (1 # 1000))%Q, (500 * (1 # 1000))%Q);
           ("CENTRAL C", 0%Q, 0%Q)]
        ∧ printed st
          = [CantReadCapacity "CENTRAL C";
             CantReadGeneration "CENTRAL C" (CText "")]
    | Raise _ => False
    end.
Proof. vm_compute. repeat split. Qed.

(** C3.  The claim says that a row whose grid is AISLADO is discarded
    before anything else, also when it is the first data row.  The first
    data row is read before the loop and is never compared with AISLADO:
    an islanded first row becomes the open group, is emitted and takes
    the identifier of counter value 1.  The same row inside the loop is
    dropped. *)
Theorem C3_islanded_first_row_is_not_discarded :
  match arg_run [islanded; central_b; end_of_table] with
  | Ok st =>
      ((λ kv, (kv.1, plant_name kv.2)) <$> plants_dictionary st)
      = [("ARG1", "CENTRAL AISLADA"); ("ARG2", "CENTRAL B")]
  | Raise _ => False
  end
  ∧ match arg_run [central_a; islanded; central_b; end_of_table] with
    | Ok st =>
        ((λ kv, (kv.1, plant_name kv.2)) <$> plants_dictionary st)
        = [("ARG1", "CENTRAL A"); ("ARG2", "CENTRAL B")]
    | Raise _ => False
    end.
Proof. vm_compute. repeat split. Qed.

End ARGClaims.

(** ** build_database_ARG.py: enrichment *)
Section ARGEnrichment.
Import Py Pw ARG.
Context `{lib : Lib}.
Variable locations : gmap string (string * string).
Variable years : gmap string string.

Lemma enrich_one plant :
  let after := (assign_year years (assign_location locations plant).1).1 in
  located locations plant after ∧ dated years plant after
  ∧ same_record plant after.
Proof.
  unfold located, dated, same_record, assign_year, assign_location.
  destruct (locations !! plant_name plant) as [coords|] eqn:Hl; simpl;
    destruct (years !! plant_name plant) as [year|] eqn:Hy; simpl;
    rewrite ?Hy; repeat split; done.
Qed.

Lemma assign_location_hit plant :
  (assign_location locations plant).2
  = bool_decide (plant_name plant ∈ dom locations).
Proof.
  unfold assign_location.
  destruct (locations !! plant_name plant) eqn:H; simpl; symmetry.
  - apply bool_decide_eq_true_2, elem_of_dom. eauto.
  - apply bool_decide_eq_false_2. by rewrite not_elem_of_dom.
Qed.

Lemma assign_year_hit plant :
  (assign_year years plant).2
  = bool_decide (plant_name plant ∈ dom years).
Proof.
  unfold assign_year.
  destruct (years !! plant_name plant) eqn:H; simpl; symmetry.
  - apply bool_decide_eq_true_2, elem_of_dom. eauto.
  - apply bool_decide_eq_false_2. by rewrite not_elem_of_dom.
Qed.

Lemma assign_location_name plant :
  plant_name (assign_location locations plant).1 = plant_name plant.
Proof. unfold assign_location. by destruct (locations !! _). Qed.

(** C6.  Enrichment keeps every record under its key and in its place;
    each table on its own decides its field: on a hit of the plant's name
    the location (or the commissioning year) is set from the table, on a
    miss it stays as it was; the plants that miss the location table, and
    separately those that miss the year table, are exactly the ones
    appended to that table's list; every other field is untouched.  A
    plant can hit one table and miss the other. *)
Theorem C6_enrichment_is_per_table_and_drops_nothing
    (items : list (string * PowerPlant)) :
  let result := enrich locations years items in
  fst <$> enriched_plants result = fst <$> items
  ∧ Forall2 (λ before after,
               located locations before.2 after.2
               ∧ dated years before.2 after.2
               ∧ same_record before.2 after.2)
      items (enriched_plants result)
  ∧ location_not_found result
    = fst <$> filter (λ kv, locations !! plant_name kv.2 = None) items
  ∧ year_not_found result
    = fst <$> filter (λ kv, years !! plant_name kv.2 = None) items
  ∧ ∃ l y plant,
      location_not_found (enrich l y [(plant_idnr plant, plant)]) = []
      ∧ year_not_found (enrich l y [(plant_idnr plant, plant)])
        = [plant_idnr plant].
Proof.
  simpl. repeat split.
  - induction items as [|[idnr plant] rest IH]; [done|].
    cbn [enrich enriched_plants]. rewrite !fmap_cons. by f_equal.
  - induction items as [|[idnr plant] rest IH]; [constructor|].
    cbn [enrich enriched_plants]. constructor; [|done].
    apply enrich_one.
  - induction items as [|[idnr plant] rest IH]; [done|].
    cbn [enrich location_not_found]. rewrite IH.
    unfold assign_location.
    destruct (locations !! plant_name plant) eqn:Hl; simpl.
    + rewrite filter_cons_False; [done|]. simpl. by rewrite Hl.
    + rewrite filter_cons_True; [done|]. done.
  - induction items as [|[idnr plant] rest IH]; [done|].
    cbn [enrich year_not_found]. rewrite IH.
    unfold assign_year. rewrite assign_location_name.
    destruct (years !! plant_name plant) eqn:Hy; simpl.
    + rewrite filter_cons_False; [done|]. simpl. by rewrite Hy.
    + rewrite filter_cons_True; [done|]. done.
  - set (plant :=
           {| plant_idnr := "ARG1"; plant_name := "CENTRAL A";
              plant_owner := ""; plant_fuel := ∅;
              plant_country := COUNTRY_NAME; plant_capacity := 0;
              plant_cap_year := YEAR_OF_DATA; plant_source := SOURCE_NAME;
              plant_source_url := SOURCE_URL;
              plant_generation :=
                {| gwh := 0; start_date := gen_start;
                   end_date := gen_stop; gen_source := SOURCE_NAME |};
              location := None; commissioning_year := None |}).
    exists {["CENTRAL A" := ("-34.6", "-58.4")]}, ∅, plant.
    cbn [enrich location_not_found year_not_found].
    unfold assign_location, assign_year. simpl.
    rewrite lookup_singleton_eq. simpl. by rewrite lookup_empty.
Qed.
End ARGEnrichment.

(** ** build_database_BRA.py *)
Section BRAFacts.
Import Py Pw BRA.
Context `{lib : Lib} (atof : string → option Q).
Variable plant_coordinates : gmap string (Q * Q).

Abbreviation bra_body := (BRA.loop_body atof plant_coordinates).

(** [fuel_types] holds its eight keys and nothing else. *)
Lemma standardize_fuel_BRA_known :
  standardize_fuel_BRA "CGH" = Ok "Hydro"
  ∧ standardize_fuel_BRA "CGU" = Ok "Wave and Tidal"
  ∧ standardize_fuel_BRA "EOL" = Ok "Wind"
  ∧ standardize_fuel_BRA "PCH" = Ok "Hydro"
  ∧ standardize_fuel_BRA "UFV" = Ok "Solar"
  ∧ standardize_fuel_BRA "UHE" = Ok "Hydro"
  ∧ standardize_fuel_BRA "UTE" = Ok "Thermal"
  ∧ standardize_fuel_BRA "UTN" = Ok "Nuclear".
Proof. repeat split; reflexivity. Qed.

Lemma standardize_fuel_BRA_unknown fuel_string :
  fuel_string ∉ fuel_codes → standardize_fuel_BRA fuel_string = Raise KeyError.
Proof.
  unfold fuel_codes. rewrite !not_elem_of_cons. intros H. destruct_and!.
  unfold standardize_fuel_BRA, fuel_types.
  rewrite !lookup_insert_ne by congruence.
  by rewrite lookup_empty.
Qed.

Lemma standardize_fuel_BRA_defined fuel_string fuel :
  standardize_fuel_BRA fuel_string = Ok fuel → fuel_string ∈ fuel_codes.
Proof.
  intros H. destruct (decide (fuel_string ∈ fuel_codes)) as [|Hout]; [done|].
  rewrite (standardize_fuel_BRA_unknown _ Hout) in H. discriminate.
Qed.

(** A row whose plant number reads and whose prefix is no key of
    [fuel_types] raises KeyError, whatever the state. *)
Lemma loop_body_unknown_prefix st row plant_id :
  int (slice (strip (ceg_text row)) (-11) (-5)) = Ok plant_id →
  slice (strip (ceg_text row)) 0 3 ∉ fuel_codes →
  bra_body st row = Raise KeyError.
Proof.
  intros Hid Hfuel. unfold BRA.loop_body. rewrite Hid. simpl.
  by rewrite (standardize_fuel_BRA_unknown _ Hfuel).
Qed.

(** A row that reads well and whose owner text holds the marker makes no
    record and executes [break]. *)
Lemma loop_body_unidentified_owner st row plant_id fuel capacity :
  int (slice (strip (ceg_text row)) (-11) (-5)) = Ok plant_id →
  standardize_fuel_BRA (slice (strip (ceg_text row)) 0 3) = Ok fuel →
  atof (capacity_text row) = Some capacity →
  contains unidentified_owner
    (format_string (strip (owner_text row)) (Codec ENCODING)) = true →
  ∃ st', bra_body st row = Ok (Break st')
         ∧ plants_dictionary st' = plants_dictionary st
         ∧ owner st' = NO_DATA_UNICODE.
Proof.
  intros Hid Hfuel Hcap Hmark. unfold BRA.loop_body.
  rewrite Hid. simpl. rewrite Hfuel. simpl.
  destruct (lookup_coordinates plant_coordinates (strip (ceg_text row)))
    as [[lat lon] found].
  simpl. rewrite Hcap. simpl. rewrite Hmark. eauto.
Qed.

(** What one completed turn adds to the dictionary. *)
Lemma loop_body_dictionary st row flow_st kv :
  (bra_body st row = Ok (Next flow_st) ∨ bra_body st row = Ok (Break flow_st)) →
  kv ∈ plants_dictionary flow_st →
  kv ∈ plants_dictionary st
  ∨ (plant_location kv.2 = location_of plant_coordinates (strip (ceg_text row))
     ∧ plant_name kv.2 = format_string (strip (name_text row)) NoEncoding).
Proof.
  unfold BRA.loop_body, location_of.
  destruct (int (slice (strip (ceg_text row)) (-11) (-5))) as [plant_id|];
    simpl; [|by intros [|]].
  destruct (standardize_fuel_BRA (slice (strip (ceg_text row)) 0 3))
    as [fuel|]; simpl; [|by intros [|]].
  destruct (lookup_coordinates plant_coordinates (strip (ceg_text row)))
    as [[lat lon] found] eqn:Hlook.
  destruct (atof (capacity_text row)) as [capacity|]; simpl;
    [|by intros [|]].
  destruct (contains unidentified_owner _).
  - intros [[=]|[= <-]]. by left.
  - intros [[= <-]|[=]]. cbn [plants_dictionary].
    generalize (plants_dictionary st). intros d.
    induction d as [|[k v] d IH]; simpl.
    + intros ->%list_elem_of_singleton. by right.
    + destruct (decide (k = make_id SAVE_CODE plant_id)).
      * intros [->|Hin]%elem_of_cons; [by right|]. left. by right.
      * intros [->|Hin]%elem_of_cons; [left; by left|].
        destruct (IH Hin) as [?|?]; [left; by right|by right].
Qed.

(** Every plant of the dictionary has the location that the coordinate
    table gives to the CEG code of one of the rows. *)
Lemma run_locations rows st :
  BRA.run atof plant_coordinates rows = Ok st →
  ∀ kv, kv ∈ plants_dictionary st →
    ∃ row, row ∈ rows
      ∧ plant_location kv.2
        = location_of plant_coordinates (strip (ceg_text row))
      ∧ plant_name kv.2 = format_string (strip (name_text row)) NoEncoding.
Proof.
  unfold BRA.run.
  assert (Hgen : ∀ rows st0 st,
            for_each_break bra_body st0 rows = Ok st →
            ∀ kv, kv ∈ plants_dictionary st →
              kv ∈ plants_dictionary st0
              ∨ ∃ row, row ∈ rows
                  ∧ plant_location kv.2
                    = location_of plant_coordinates (strip (ceg_text row))
                  ∧ plant_name kv.2
                    = format_string (strip (name_text row)) NoEncoding).
  { clear rows st. induction rows as [|row rows IH]; intros st0 st; simpl.
    - intros [= <-] kv Hkv. by left.
    - destruct (bra_body st0 row) as [[st1|st1]|] eqn:Hb; [| |discriminate].
      + intros Hrest kv Hkv.
        destruct (IH _ _ Hrest kv Hkv) as [Hin|(r & Hr & H)].
        * destruct (loop_body_dictionary st0 row st1 kv (or_introl Hb) Hin)
            as [?|?]; [by left|]. right. exists row. split; [left|done].
        * right. exists r. split; [by right|done].
      + intros [= <-] kv Hkv.
        destruct (loop_body_dictionary st0 row st1 kv (or_intror Hb) Hkv)
          as [?|?]; [by left|]. right. exists row. split; [left|done]. }
  intros Hrun kv Hkv. destruct (Hgen rows initial st Hrun kv Hkv) as [Hin|H].
  - by apply elem_of_nil in Hin.
  - done.
Qed.

Lemma lookup_coordinates_hit ceg_code :
  (lookup_coordinates plant_coordinates ceg_code).2
  = bool_decide (slice ceg_code 0 16 ∈ dom plant_coordinates).
Proof.
  unfold lookup_coordinates.
  destruct (plant_coordinates !! slice ceg_code 0 16) eqn:H; simpl; symmetry.
  - apply bool_decide_eq_true_2, elem_of_dom. eauto.
  - apply bool_decide_eq_false_2. by rewrite not_elem_of_dom.
Qed.
End BRAFacts.

(** ** The identifiers of both scripts *)
Section IdentifierClaims.
Import Py Pw Inputs.






End IdentifierClaims.

(** ** The claims about the Brazil script and about the join keys *)
Section JoinClaims.
Import Py Pw Inputs.

(** The keys of the Argentine location table are exactly the formatted
    first cells of the data rows of the location file. *)
Lemma read_locations_keys `{lib : Lib} headers data locations :
  ARG.read_locations (headers :: data) = Ok locations →
  ∀ k, k ∈ dom locations
       ↔ ∃ row key, row ∈ data ∧ row !! 0%nat = Some key
                    ∧ k = format_string key DefaultEncoding.
Proof.
  unfold ARG.read_locations. intros Hrun.
  set (P := λ (done : list (list string)) (d : gmap string (string * string)),
              ∀ k, k ∈ dom d
                   ↔ ∃ row key, row ∈ done ∧ row !! 0%nat = Some key
                                ∧ k = format_string key DefaultEncoding).
  assert (HP : P data locations).
  { eapply (for_each_invariant P); [| |exact Hrun].
    - intros done d row d' IH. unfold index.
      destruct (row !! 1%nat) as [lat|]; simpl; [|discriminate].
      destruct (row !! 2%nat) as [lon|]; simpl; [|discriminate].
      destruct (row !! 0%nat) as [key|] eqn:Hkey; simpl; [|discriminate].
      intros [= <-] k'. rewrite dom_insert_L, elem_of_union, elem_of_singleton.
      split.
      + intros [->|Hin].
        * exists row, key. split; [|done]. apply elem_of_app. right. left.
        * destruct (proj1 (IH k') Hin) as (r & key' & Hr & H).
          exists r, key'. split; [|done]. apply elem_of_app. by left.
      + intros (r & key' & [Hr|Hr%list_elem_of_singleton]%elem_of_app
                & Hkey' & ->).
        * right. apply IH. by exists r, key'.
        * subst r. left. congruence.
    - intros k'. rewrite dom_empty_L. split.
      + intros H. by apply elem_of_empty in H.
      + intros (r & key' & Hr & _). by apply elem_of_nil in Hr. }
  exact HP.
Qed.

(** The same for the commissioning-year table. *)
Lemma read_commissioning_years_keys `{lib : Lib} headers data years :
  ARG.read_commissioning_years (headers :: data) = Ok years →
  ∀ k, k ∈ dom years
       ↔ ∃ row key, row ∈ data ∧ row !! 0%nat = Some key
                    ∧ k = format_string key DefaultEncoding.
Proof.
  unfold ARG.read_commissioning_years. intros Hrun.
  set (P := λ (done : list (list string)) (d : gmap string string),
              ∀ k, k ∈ dom d
                   ↔ ∃ row key, row ∈ done ∧ row !! 0%nat = Some key
                                ∧ k = format_string key DefaultEncoding).
  assert (HP : P data years).
  { eapply (for_each_invariant P); [| |exact Hrun].
    - intros done d row d' IH. unfold index.
      destruct (row !! 1%nat) as [year|]; simpl; [|discriminate].
      destruct (row !! 0%nat) as [key|] eqn:Hkey; simpl; [|discriminate].
      intros [= <-] k'. rewrite dom_insert_L, elem_of_union, elem_of_singleton.
      split.
      + intros [->|Hin].
        * exists row, key. split; [|done]. apply elem_of_app. right. left.
        * destruct (proj1 (IH k') Hin) as (r & key' & Hr & H).
          exists r, key'. split; [|done]. apply elem_of_app. by left.
      + intros (r & key' & [Hr|Hr%list_elem_of_singleton]%elem_of_app
                & Hkey' & ->).
        * right. apply IH. by exists r, key'.
        * subst r. left. congruence.
    - intros k'. rewrite dom_empty_L. split.
      + intros H. by apply elem_of_empty in H.
      + intros (r & key' & Hr & _). by apply elem_of_nil in Hr. }
  exact HP.
Qed.

(** C5.  The claim says that a row whose owner text holds the
    unidentified-owner marker gets the no-data sentinel as owner and that
    the loop goes on with that row and with the rows after it.  The script
    assigns the sentinel and then executes [break]: the marked row makes no
    record and the rows after it are never read.  Without the marked row the
    same table gives both records. *)
Theorem C5_unidentified_owner_ends_the_loop :
  match bra_run [roca_grande; sem_dono; vento_norte] with
  | Ok st =>
      bra_identifiers st = ["BRA2535"]
      ∧ BRA.owner st = NO_DATA_UNICODE (Lib := PwModel.lib)
  | Raise _ => False
  end
  ∧ match bra_run [roca_grande; vento_norte] with
    | Ok st => bra_identifiers st = ["BRA2535"; "BRA17"]
    | Raise _ => False
    end.
Proof. vm_compute. repeat split. Qed.

(** C7, the claim as stated, refuted on the Brazil script: two rows of one
    name and different CEG codes get different locations from the one
    coordinate table, so the table is not joined on the name. *)
Lemma C7_brazil_join_is_not_keyed_by_name :
  match bra_run [roca_grande; roca_grande_pch] with
  | Ok st =>
      ((λ kv, (BRA.plant_name kv.2, BRA.loc_latitude (BRA.plant_location kv.2)))
         <$> BRA.plants_dictionary st)
      = [("Roca Grande", BRA.Degrees (Qmake (-20) 1));
         ("Roca Grande", BRA.NO_DATA_NUMERIC)]
      ∧ ¬ BRA.joined_by_name (snd <$> BRA.plants_dictionary st)
  | Raise _ => False
  end.
Proof.
  vm_compute. split; [reflexivity|]. intros H.
  specialize (H _ _ (list_elem_of_here _ _)
                (list_elem_of_further _ _ _ (list_elem_of_here _ _))
                eq_refl).
  discriminate H.
Qed.

(** C7, as amended.  Each script joins on its own key, matched exactly
    and never by distance.  In the Argentina script a plant hits the
    location table, or the commissioning-year table, exactly when its name
    is a key of that table, and the keys of each of the two tables are
    exactly the formatted first cells of the data rows of its file, the
    header row left out.  In the Brazil script a plant hits the coordinate
    table exactly when the first 16 characters of its CEG code are a key of
    it, and every plant of the dictionary carries the location that the
    table gives to the CEG code of a row of its name. *)
Theorem C7_each_script_joins_on_its_own_key `{lib : Lib}
    (location_headers year_headers : list string)
    (location_rows year_rows : list (list string))
    (locations : gmap string (string * string)) (years : gmap string string)
    (plant : ARG.PowerPlant)
    (atof : string → option Q) (table : gmap string (Q * Q))
    (ceg_code : string) (rows : list BRA.TableRow) (st : BRA.State) :
  ARG.read_locations (location_headers :: location_rows) = Ok locations →
  ARG.read_commissioning_years (year_headers :: year_rows) = Ok years →
  BRA.run atof table rows = Ok st →
  (ARG.assign_location locations plant).2
  = bool_decide (ARG.plant_name plant ∈ dom locations)
  ∧ (ARG.assign_year years plant).2
    = bool_decide (ARG.plant_name plant ∈ dom years)
  ∧ (∀ k, k ∈ dom locations
          ↔ ∃ row key, row ∈ location_rows ∧ row !! 0%nat = Some key
                       ∧ k = format_string key DefaultEncoding)
  ∧ (∀ k, k ∈ dom years
          ↔ ∃ row key, row ∈ year_rows ∧ row !! 0%nat = Some key
                       ∧ k = format_string key DefaultEncoding)
  ∧ (BRA.lookup_coordinates table ceg_code).2
    = bool_decide (slice ceg_code 0 16 ∈ dom table)
  ∧ ∀ kv, kv ∈ BRA.plants_dictionary st →
      ∃ row, row ∈ rows
        ∧ BRA.plant_location kv.2
          = BRA.location_of table (strip (BRA.ceg_text row))
        ∧ BRA.plant_name kv.2
          = format_string (strip (BRA.name_text row)) NoEncoding.
Proof.
  intros Hlocations Hyears Hrun.
  split; [apply assign_location_hit|].
  split; [apply assign_year_hit|].
  split; [by apply (read_locations_keys location_headers)|].
  split; [by apply (read_commissioning_years_keys year_headers)|].
  split; [apply lookup_coordinates_hit|].
  by apply (run_locations atof table rows st).
Qed.

Lemma C7_join_key_witness :
  match ARG.read_locations (lib := PwModel.lib) location_csv,
        ARG.read_commissioning_years (lib := PwModel.lib) year_csv,
        bra_run [roca_grande; roca_grande_pch] with
  | Ok locations, Ok years, Ok st =>
      (ARG.assign_location (lib := PwModel.lib) locations arg_plant).2
      = bool_decide (ARG.plant_name arg_plant ∈ dom locations)
      ∧ (ARG.assign_year years arg_plant).2
        = bool_decide (ARG.plant_name arg_plant ∈ dom years)
      ∧ (∀ k, k ∈ dom locations
              ↔ ∃ row key, row ∈ [[" CENTRAL A "; "-34.6"; "-58.4"]]
                           ∧ row !! 0%nat = Some key
                           ∧ k = PwModel.format_string key DefaultEncoding)
      ∧ (∀ k, k ∈ dom years
              ↔ ∃ row key, row ∈ [["CENTRAL B"; "1998"]]
                           ∧ row !! 0%nat = Some key
                           ∧ k = PwModel.format_string key DefaultEncoding)
      ∧ (BRA.lookup_coordinates coordinates "UHE.PH.MG.002535-9.01").2
        = bool_decide (slice "UHE.PH.MG.002535-9.01" 0 16 ∈ dom coordinates)
  | _, _, _ => False
  end.
Proof.
  destruct (ARG.read_locations (lib := PwModel.lib) location_csv)
    as [locations|e] eqn:Hcsv;
    [|vm_compute in Hcsv; discriminate Hcsv].
  destruct (ARG.read_commissioning_years (lib := PwModel.lib) year_csv)
    as [years|e] eqn:Hyears;
    [|vm_compute in Hyears; discriminate Hyears].
  destruct (bra_run [roca_grande; roca_grande_pch]) as [st|e] eqn:Hrun;
    [|vm_compute in Hrun; discriminate Hrun].
  destruct (C7_each_script_joins_on_its_own_key (lib := PwModel.lib)
              ["name"; "latitude"; "longitude"] ["name"; "year"]
              [[" CENTRAL A "; "-34.6"; "-58.4"]] [["CENTRAL B"; "1998"]]
              locations years arg_plant decimal_float coordinates
              "UHE.PH.MG.002535-9.01" [roca_grande; roca_grande_pch] st
              Hcsv Hyears Hrun)
    as (H1 & H2 & H3 & H4 & H5 & _).
  split; [exact H1|]. split; [exact H2|]. split; [exact H3|].
  split; [exact H4|exact H5].
Defined.

(** [int] raises nothing but ValueError. *)
Lemma int_raises (s : string) (e : exn) : int s = Raise e → e = ValueError.
Proof.
  unfold int.
  destruct (match lstrip s with
            | String "-"%char t' => Z.opp <$> unsigned_value t'
            | String "+"%char t' => unsigned_value t'
            | _ => unsigned_value (lstrip s)
            end); [done|]. by intros [= <-].
Qed.

(** A row whose plant number does not read raises ValueError before the
    fuel lookup is reached, whatever its prefix. *)
Lemma loop_body_unreadable_number `{lib : Lib} (atof : string → option Q)
    (table : gmap string (Q * Q)) (st : BRA.State) (row : BRA.TableRow) :
  is_ok (int (slice (strip (BRA.ceg_text row)) (-11) (-5))) = false →
  BRA.loop_body atof table st row = Raise ValueError.
Proof.
  intros Hid. unfold BRA.loop_body.
  destruct (int (slice (strip (BRA.ceg_text row)) (-11) (-5)))
    as [plant_id|e] eqn:Hint; [discriminate|].
  by rewrite (int_raises _ _ Hint).
Qed.

(** C10, as amended.  [standardize_fuel_BRA] is the lookup in a
    dictionary of eight keys: on each key it returns the fuel of that key,
    on nothing else does it return, and on every other text it raises
    KeyError.  Nothing catches the exception: a row of the table whose
    plant number reads and whose CEG code starts with another prefix raises
    KeyError out of the loop, whatever the loop has done before and
    whatever rows follow, so the run ends without a dictionary.  The plant
    number is read first: a row whose plant number does not read raises
    ValueError out of the loop, whatever its prefix, and the lookup is not
    reached. *)
Theorem C10_standardize_fuel_BRA_is_partial `{lib : Lib}
    (atof : string → option Q) (table : gmap string (Q * Q))
    (fuel_string : string) (st : BRA.State) (row : BRA.TableRow)
    (rest : list BRA.TableRow) (plant_id : Z) :
  fuel_string ∉ BRA.fuel_codes →
  int (slice (strip (BRA.ceg_text row)) (-11) (-5)) = Ok plant_id →
  slice (strip (BRA.ceg_text row)) 0 3 = fuel_string →
  (BRA.standardize_fuel_BRA "CGH" = Ok "Hydro"
   ∧ BRA.standardize_fuel_BRA "CGU" = Ok "Wave and Tidal"
   ∧ BRA.standardize_fuel_BRA "EOL" = Ok "Wind"
   ∧ BRA.standardize_fuel_BRA "PCH" = Ok "Hydro"
   ∧ BRA.standardize_fuel_BRA "UFV" = Ok "Solar"
   ∧ BRA.standardize_fuel_BRA "UHE" = Ok "Hydro"
   ∧ BRA.standardize_fuel_BRA "UTE" = Ok "Thermal"
   ∧ BRA.standardize_fuel_BRA "UTN" = Ok "Nuclear")
  ∧ (∀ s fuel, BRA.standardize_fuel_BRA s = Ok fuel → s ∈ BRA.fuel_codes)
  ∧ BRA.standardize_fuel_BRA fuel_string = Raise KeyError
  ∧ for_each_break (BRA.loop_body atof table) st (row :: rest)
    = Raise KeyError
  ∧ BRA.run atof table (row :: rest) = Raise KeyError
  ∧ ∀ st' row' rest',
      is_ok (int (slice (strip (BRA.ceg_text row')) (-11) (-5))) = false →
      for_each_break (BRA.loop_body atof table) st' (row' :: rest')
      = Raise ValueError.
Proof.
  intros Hout Hid Hprefix. subst fuel_string.
  split; [apply standardize_fuel_BRA_known|].
  split; [apply standardize_fuel_BRA_defined|].
  split; [by apply standardize_fuel_BRA_unknown|].
  split; [|split].
  - apply for_each_break_raise. by eapply loop_body_unknown_prefix.
  - unfold BRA.run. apply for_each_break_raise.
    by eapply loop_body_unknown_prefix.
  - intros st' row' rest' Hunreadable. apply for_each_break_raise.
    by apply loop_body_unreadable_number.
Qed.

Lemma C10_unknown_prefix_witness :
  ("XYZ" ∉ BRA.fuel_codes)
  ∧ int (slice (strip (BRA.ceg_text unknown_prefix)) (-11) (-5)) = Ok 99%Z
  ∧ slice (strip (BRA.ceg_text unknown_prefix)) 0 3 = "XYZ"
  ∧ BRA.standardize_fuel_BRA "XYZ" = Raise KeyError
  ∧ bra_run [unknown_prefix; vento_norte] = Raise KeyError.
Proof.
  assert (Hout : "XYZ" ∉ BRA.fuel_codes).
  { unfold BRA.fuel_codes. rewrite !not_elem_of_cons.
    repeat split; try discriminate. apply not_elem_of_nil. }
  assert (Hid : int (slice (strip (BRA.ceg_text unknown_prefix)) (-11) (-5))
                = Ok 99%Z) by reflexivity.
  assert (Hprefix : slice (strip (BRA.ceg_text unknown_prefix)) 0 3 = "XYZ")
    by reflexivity.
  split; [exact Hout|]. split; [exact Hid|]. split; [exact Hprefix|].
  pose proof (C10_standardize_fuel_BRA_is_partial (lib := PwModel.lib)
                decimal_float coordinates "XYZ" BRA.initial unknown_prefix
                [vento_norte] 99%Z Hout Hid Hprefix)
    as (_ & _ & Hkey & _ & Hrun & _).
  split; [exact Hkey|exact Hrun].
Defined.

(** C10, the claim as stated, refuted.  The claim has every row with
    another prefix raise KeyError.  The plant number is read one line
    before the fuel lookup: a row with the prefix XYZ whose plant number
    does not read raises ValueError, and the lookup that would raise
    KeyError is never made. *)
Lemma C10_unreadable_plant_number_raises_before_the_lookup :
  slice (strip (BRA.ceg_text unknown_prefix_unreadable)) 0 3 = "XYZ"
  ∧ ("XYZ" ∉ BRA.fuel_codes)
  ∧ int (slice (strip (BRA.ceg_text unknown_prefix_unreadable)) (-11) (-5))
    = Raise ValueError
  ∧ bra_run [unknown_prefix_unreadable; vento_norte] = Raise ValueError
  ∧ bra_run [unknown_prefix_unreadable; vento_norte] ≠ Raise KeyError.
Proof.
  split; [reflexivity|]. split.
  { unfold BRA.fuel_codes. rewrite !not_elem_of_cons.
    repeat split; try discriminate. apply not_elem_of_nil. }
  split; [reflexivity|]. split; [reflexivity|].
  intros H. vm_compute in H. discriminate H.
Qed.
End JoinClaims.

(** ** utils/powerwatch_summary.py: a country without records *)
Section SummaryEmpty.
Import Py Pw Summary.
Context `{lib : Lib}.

Lemma of_country_none db country :
  Forall (λ p, Summary.country p ≠ country) db → of_country country db = [].
Proof.
  unfold of_country. induction 1 as [|p db Hp _ IH]; [done|].
  by rewrite filter_cons_False.
Qed.

Lemma country_summary_none db country iso_code :
  Forall (λ p, Summary.country p ≠ country) db →
  country_summary db country iso_code = Ok (minimal_summary country iso_code).
Proof.
  intros H. unfold country_summary. by rewrite (of_country_none _ _ H).
Qed.

Lemma writerow_minimal country iso_code :
  writerow summary_fieldnames (minimal_summary country iso_code)
  = Ok (minimal_row country iso_code).
Proof.
  unfold writerow. rewrite decide_True; [reflexivity|].
  unfold minimal_summary. rewrite !dom_insert_L, dom_empty_L.
  intros x Hx. apply elem_of_list_to_set. unfold summary_fieldnames.
  set_unfold in Hx. destruct Hx as [->|[->|[->|[]]]]; set_solver.
Qed.

(** After the first loop of the main program the dictionary holds, for
    every code it was given, the summary of that code's country. *)
Lemma summarize_lookup db countries codes summaries iso_code country :
  summarize db countries codes = Ok summaries →
  iso_code ∈ codes → countries !! iso_code = Some country →
  ∃ summary, country_summary db country iso_code = Ok summary
             ∧ summaries !! iso_code = Some summary.
Proof.
  unfold summarize. intros Hrun Hin Hc.
  set (P := λ (done : list string) (d : gmap string (gmap string Value)),
              ∀ iso c, iso ∈ done → countries !! iso = Some c →
                ∃ summary, country_summary db c iso = Ok summary
                           ∧ d !! iso = Some summary).
  assert (HP : P codes summaries).
  { eapply (for_each_invariant P); [| |exact Hrun].
    - intros done d iso d' IH. cbv beta.
      destruct (countries !! iso) as [c|] eqn:Hiso; [|discriminate].
      destruct (country_summary db c iso) as [summary|] eqn:Hs; simpl;
        [|discriminate].
      intros [= <-] iso' c' [Hdone|Hnew%list_elem_of_singleton]%elem_of_app Hc'.
      + destruct (decide (iso = iso')) as [->|Hne].
        * rewrite lookup_insert_eq. exists summary. split; [congruence|done].
        * rewrite lookup_insert_ne by done. by apply IH.
      + subst iso'. rewrite lookup_insert_eq. exists summary.
        split; [congruence|done].
    - intros iso c Hnil. by apply elem_of_nil in Hnil. }
  by apply HP.
Qed.

(** The second loop writes, for the i-th code, the row of its summary. *)
Lemma write_rows_lookup (summaries : gmap string (gmap string Value))
    codes rows i iso_code :
  write_rows summaries codes = Ok rows →
  codes !! i = Some iso_code →
  length rows = length codes
  ∧ ∃ summary row, summaries !! iso_code = Some summary
      ∧ writerow summary_fieldnames summary = Ok row
      ∧ rows !! i = Some row.
Proof.
  unfold write_rows. intros Hrun Hi.
  set (P := λ (done : list string) (written : list (list (option Value))),
              Forall2 (λ iso row,
                         ∃ summary, summaries !! iso = Some summary
                           ∧ writerow summary_fieldnames summary = Ok row)
                done written).
  assert (HP : P codes rows).
  { eapply (for_each_invariant P); [| |exact Hrun].
    - intros done written iso written' IH. cbv beta.
      destruct (summaries !! iso) as [summary|] eqn:Hs; [|discriminate].
      destruct (writerow summary_fieldnames summary) as [row|] eqn:Hw; simpl;
        [|discriminate].
      intros [= <-]. apply Forall2_app; [done|]. constructor; [|constructor].
      eauto.
    - constructor. }
  split; [symmetry; by eapply Forall2_length|].
  destruct (Forall2_lookup_l _ _ _ _ _ HP Hi) as (row & Hrow & summary & Hs & Hw).
  eauto.
Qed.

(** C8.  For a country that the dataset has no record of, the summary
    does not raise: it is the dictionary of country, iso_code and count 0
    and nothing else.  The writer accepts it and writes the three fields
    followed by empty ones.  Whenever the main program gets to write, the
    row at the place of such a country is that row, one row is written for
    each requested code, and when the country is the only one requested the
    program completes with exactly that row. *)
Theorem C8_country_without_records_gets_minimal_row
    (db : list Plant) (countries : gmap string string)
    (codes : list string) (i : nat) (country iso_code : string)
    (rows : list (list (option Value))) :
  countries !! iso_code = Some country →
  Forall (λ p, Summary.country p ≠ country) db →
  codes !! i = Some iso_code →
  write_summaries db countries codes = Ok rows →
  country_summary db country iso_code = Ok (minimal_summary country iso_code)
  ∧ dom (minimal_summary country iso_code)
    = ({["country"; "iso_code"; "count"]} : gset string)
  ∧ minimal_summary country iso_code !! "count" = Some (VInt 0)
  ∧ writerow summary_fieldnames (minimal_summary country iso_code)
    = Ok (minimal_row country iso_code)
  ∧ length rows = length codes
  ∧ rows !! i = Some (minimal_row country iso_code)
  ∧ write_summaries db countries [iso_code]
    = Ok [minimal_row country iso_code].
Proof.
  intros Hc Hnone Hi Hrun.
  pose proof (country_summary_none db country iso_code Hnone) as Hsum.
  split; [done|]. split.
  { unfold minimal_summary. rewrite !dom_insert_L, dom_empty_L. set_solver. }
  split; [done|]. split; [apply writerow_minimal|].
  unfold write_summaries in Hrun.
  destruct (summarize db countries codes) as [summaries|] eqn:Hs; simpl in Hrun;
    [|discriminate].
  destruct (write_rows_lookup summaries codes rows i iso_code Hrun Hi)
    as (Hlen & summary & row & Hlook & Hw & Hrow).
  destruct (summarize_lookup db countries codes summaries iso_code country
              Hs (list_elem_of_lookup_2 _ _ _ Hi) Hc) as (s' & Hs' & Hlook').
  assert (summary = minimal_summary country iso_code) as -> by congruence.
  rewrite writerow_minimal in Hw. injection Hw as <-.
  split; [done|]. split; [done|].
  unfold write_summaries, summarize. simpl. rewrite Hc. simpl. rewrite Hsum.
  simpl. unfold write_rows. simpl. rewrite lookup_insert_eq.
  by rewrite writerow_minimal.
Qed.

End SummaryEmpty.

Section SummaryEmptyWitness.
Import Py Pw Summary.

Lemma C8_country_without_records_witness :
  Inputs.countries !! "BRA" = Some "Brazil"
  ∧ Forall (λ p, Summary.country p ≠ "Brazil") Inputs.dual_fuel_db
  ∧ ["ARG"; "BRA"] !! 1%nat = Some "BRA"
  ∧ match write_summaries (lib := PwModel.lib) Inputs.dual_fuel_db
            Inputs.countries ["ARG"; "BRA"] with
    | Ok rows =>
        country_summary (lib := PwModel.lib) Inputs.dual_fuel_db "Brazil" "BRA"
        = Ok (minimal_summary "Brazil" "BRA")
        ∧ length rows = 2%nat
        ∧ rows !! 1%nat = Some (minimal_row "Brazil" "BRA")
    | Raise _ => False
    end.
Proof.
  assert (Hc : Inputs.countries !! "BRA" = Some "Brazil") by reflexivity.
  assert (Hnone : Forall (λ p, Summary.country p ≠ "Brazil")
                    Inputs.dual_fuel_db).
  { repeat constructor. discriminate. }
  assert (Hi : ["ARG"; "BRA"] !! 1%nat = Some "BRA") by reflexivity.
  split; [exact Hc|]. split; [exact Hnone|]. split; [exact Hi|].
  destruct (write_summaries (lib := PwModel.lib) Inputs.dual_fuel_db
              Inputs.countries ["ARG"; "BRA"]) as [rows|e] eqn:Hrun;
    [|vm_compute in Hrun; discriminate Hrun].
  destruct (C8_country_without_records_gets_minimal_row (lib := PwModel.lib)
              Inputs.dual_fuel_db Inputs.countries ["ARG"; "BRA"] 1
              "Brazil" "BRA" rows Hc Hnone Hi) as (H1 & _ & _ & _ & H5 & H6 & _).
  - exact Hrun.
  - split; [exact H1|]. split; [exact H5|exact H6].
Defined.
End SummaryEmptyWitness.

(** ** utils/powerwatch_summary.py: capacity by fuel and in total *)
Section SummaryCapacity.
Import Py Pw Summary.
Local Open Scope Q_scope.

(** [SUM], its NULL read as zero, is the plain sum. *)
Lemma SUM_total (values : list (option Q)) :
  default 0 (SUM values) == total values.
Proof.
  unfold SUM.
  assert (H : ∀ acc, default 0
                       (foldl (λ acc v,
                                 match v, acc with
                                 | Some q, Some a => Some (a + q)
                                 | Some q, None => Some q
                                 | None, _ => acc
                                 end) acc values)
                     == default 0 acc + total values).
  { induction values as [|v values IH]; intros acc; simpl.
    - ring.
    - rewrite IH. destruct v as [q|], acc as [a|]; simpl; ring. }
  rewrite H. simpl. ring.
Qed.

Lemma weighted_total_ext {A} (capacity : A → option Q) (w1 w2 : A → nat) rows :
  Forall (λ p, w1 p = w2 p) rows →
  weighted_total capacity w1 rows == weighted_total capacity w2 rows.
Proof.
  induction 1 as [|p rows Hp _ IH]; simpl; [reflexivity|].
  by rewrite Hp, IH.
Qed.

Lemma weighted_total_zero {A} (capacity : A → option Q) rows :
  weighted_total capacity (λ _, 0%nat) rows == 0.
Proof. induction rows as [|p rows IH]; simpl; [reflexivity|]. rewrite IH. ring. Qed.

Lemma weighted_total_plus {A} (capacity : A → option Q) (w1 w2 : A → nat) rows :
  weighted_total capacity (λ p, (w1 p + w2 p)%nat) rows
  == weighted_total capacity w1 rows + weighted_total capacity w2 rows.
Proof.
  induction rows as [|p rows IH]; simpl; [ring|]. rewrite IH.
  rewrite Nat2Z.inj_add, inject_Z_plus. ring.
Qed.

Lemma weighted_total_one {A} (capacity : A → option Q) (w : A → nat) rows :
  Forall (λ p, w p = 1%nat) rows →
  weighted_total capacity w rows == total (capacity <$> rows).
Proof.
  induction 1 as [|p rows Hp _ IH]; [reflexivity|].
  change (weighted_total capacity w (p :: rows))
    with (default 0 (capacity p) * inject_Z (Z.of_nat (w p))
          + weighted_total capacity w rows).
  change (total (capacity <$> p :: rows))
    with (default 0 (capacity p) + total (capacity <$> rows)).
  rewrite Hp, IH. change (inject_Z (Z.of_nat 1)) with 1. ring.
Qed.

(** The rows kept by a condition sum to the rows weighted by it. *)
Lemma total_filter {A} (capacity : A → option Q) (keep : A → bool) rows :
  total (capacity <$> filter (λ p, keep p = true) rows)
  == weighted_total capacity (λ p, if keep p then 1%nat else 0%nat) rows.
Proof.
  induction rows as [|p rows IH]; simpl; [reflexivity|].
  destruct (keep p) eqn:Hp.
  - rewrite filter_cons_True by done. simpl. rewrite IH. ring.
  - rewrite filter_cons_False by (by rewrite Hp). rewrite IH. simpl. ring.
Qed.

Context `{lib : Lib}.

(** The capacity that the loop stores for one fuel. *)
Lemma fuel_capacity_gw_value rows fuel :
  as_Q (Some (fuel_capacity_gw rows fuel))
  == total (capacity_mw <$> filter (λ p, burns fuel p = true) rows) / 1000.
Proof.
  unfold fuel_capacity_gw.
  pose proof (SUM_total (capacity_mw <$> filter (λ p, burns fuel p = true) rows))
    as H.
  destruct (SUM _) as [s|]; simpl in *.
  - by rewrite H.
  - rewrite <- H. reflexivity.
Qed.

(** Summed over a list of fuels, the stored capacities count every row
    once for each fuel of the list under which it falls. *)
Lemma fuel_capacities_weighted rows (fuels : list string) :
  foldr (λ fuel acc, as_Q (Some (fuel_capacity_gw rows fuel)) + acc) 0 fuels
  == weighted_total capacity_mw
       (λ p, length (filter (λ fuel, burns fuel p = true) fuels)) rows / 1000.
Proof.
  induction fuels as [|fuel fuels IH]; cbn [foldr].
  - rewrite (weighted_total_ext capacity_mw _ (λ _, 0%nat))
      by (apply Forall_forall; intros p _; reflexivity).
    rewrite weighted_total_zero. reflexivity.
  - rewrite IH, fuel_capacity_gw_value, total_filter.
    rewrite (weighted_total_ext capacity_mw
               (λ p, length (filter (λ f, burns f p = true) (fuel :: fuels)))
               (λ p, ((if burns fuel p then 1 else 0)
                      + length (filter (λ f, burns f p = true) fuels))%nat)).
    + rewrite weighted_total_plus. field.
    + apply Forall_forall. intros p _. destruct (burns fuel p) eqn:Hp.
      * by rewrite filter_cons_True.
      * rewrite filter_cons_False; [done|by rewrite Hp].
Qed.
End SummaryCapacity.

(** ** utils/powerwatch_summary.py: what the summary dictionary holds *)
Section SummaryDictionary.
Import Py Pw Summary.
Context `{lib : Lib}.

(** A loop of assignments to other keys leaves a key as it was. *)
Lemma foldl_lookup_other {A} (f : gmap string Value → A → gmap string Value)
    (l : list A) (m : gmap string Value) (K : string) :
  (∀ m a, f m a !! K = m !! K) → foldl f m l !! K = m !! K.
Proof.
  intros Hf. revert m. induction l as [|a l IH]; intros m; simpl; [done|].
  by rewrite IH, Hf.
Qed.

Lemma fuel_summary_total rows m fuel :
  fuel_summary rows m fuel !! "total_capacity_gw" = m !! "total_capacity_gw".
Proof. unfold fuel_summary. by rewrite !lookup_insert_ne by discriminate. Qed.

Lemma capacity_key_inj c1 c2 :
  "capacity_gw_fuel_" +:+ c1 = "capacity_gw_fuel_" +:+ c2 → c1 = c2.
Proof. intros H. by apply (inj (String.app "capacity_gw_fuel_")) in H. Qed.

(** After the loop over the fuels, the capacity entry of each fuel of the
    list is the capacity computed for that fuel, provided no two fuels of
    the list share a column name. *)
Lemma fuel_loop_capacity rows (fuels : list string) m fuel :
  NoDup (fuel_column_name <$> fuels) → fuel ∈ fuels →
  foldl (fuel_summary rows) m fuels
    !! ("capacity_gw_fuel_" +:+ fuel_column_name fuel)
  = Some (fuel_capacity_gw rows fuel).
Proof.
  revert m fuel. induction fuels as [|x fuels IH] using rev_ind;
    intros m fuel Hnd Hin; [by apply elem_of_nil in Hin|].
  rewrite foldl_app. cbn [foldl]. unfold fuel_summary at 1.
  rewrite fmap_app in Hnd. apply NoDup_app in Hnd as (Hnd & Hfresh & _).
  destruct (decide (fuel_column_name x = fuel_column_name fuel)) as [Heq|Hne].
  - rewrite Heq, lookup_insert_eq.
    apply elem_of_app in Hin as [Hin|Hin%list_elem_of_singleton].
    + exfalso. apply (Hfresh (fuel_column_name fuel)).
      * by apply list_elem_of_fmap_2.
      * rewrite <- Heq. simpl. left.
    + by subst.
  - rewrite lookup_insert_ne by (intros H%capacity_key_inj; done).
    rewrite lookup_insert_ne by discriminate.
    apply elem_of_app in Hin as [Hin|Hin%list_elem_of_singleton].
    + by apply IH.
    + by subst.
Qed.

(** A sum over the fuels depends only on the entries read. *)
Lemma foldr_capacity_ext (fuels : list string) (v1 v2 : string → Q) :
  Forall (λ fuel, v1 fuel = v2 fuel) fuels →
  foldr (λ fuel acc, (v1 fuel + acc)%Q) 0%Q fuels
  = foldr (λ fuel acc, (v2 fuel + acc)%Q) 0%Q fuels.
Proof. induction 1 as [|x l Hx _ IH]; simpl; [done|]. by rewrite Hx, IH. Qed.

(** What a completed summary of a country with records holds under the
    total and under each fuel. *)
Lemma country_summary_entries db country iso_code summary :
  NoDup (fuel_column_name <$> fuel_thesaurus_keys) →
  of_country country db ≠ [] →
  country_summary db country iso_code = Ok summary →
  (∃ total_capacity_mw,
     SUM (capacity_mw <$> of_country country db) = Some total_capacity_mw
     ∧ summary !! "total_capacity_gw"
       = Some (VReal (total_capacity_mw / 1000)))
  ∧ Forall (λ fuel,
              summary !! ("capacity_gw_fuel_" +:+ fuel_column_name fuel)
              = Some (fuel_capacity_gw (of_country country db) fuel))
      fuel_thesaurus_keys.
Proof.
  intros Hnd Hrows. unfold country_summary.
  destruct (decide (COUNT (of_country country db) = 0%Z)) as [Hz|_].
  { exfalso. apply Hrows. unfold COUNT in Hz.
    apply length_zero_iff_nil. lia. }
  destruct (SUM (capacity_mw <$> of_country country db)) as [t|];
    [|discriminate].
  cbv zeta. intros [= <-].
  unfold count_distinct_list, count_null_list, generation_years.
  cbn [foldl fst snd]. split.
  - exists t. split; [reflexivity|].
    rewrite !lookup_insert_ne by (simpl; discriminate).
    rewrite foldl_lookup_other by (intros; apply fuel_summary_total).
    rewrite !lookup_insert_ne by discriminate.
    by rewrite lookup_insert_eq.
  - apply Forall_forall. intros fuel Hfuel.
    rewrite !lookup_insert_ne by (simpl; discriminate).
    by apply fuel_loop_capacity.
Qed.
End SummaryDictionary.

(** ** utils/powerwatch_summary.py: the claim about capacity by fuel *)
Section SummaryClaims.
Import Py Pw Summary Inputs.
Local Open Scope Q_scope.

Lemma minimal_summary_no_capacity country iso_code key :
  minimal_summary country iso_code !! ("capacity_gw_fuel_" +:+ key) = None.
Proof.
  unfold minimal_summary.
  rewrite !lookup_insert_ne by (simpl; discriminate). apply lookup_empty.
Qed.

Lemma foldr_zero (fuels : list string) :
  foldr (λ (_ : string) acc, 0 + acc) 0 fuels == 0.
Proof. induction fuels as [|x l IH]; simpl; [reflexivity|]. rewrite IH. ring. Qed.

(** C9, as amended.  In the summary of a country the capacities stored
    under the fuel categories add up to the capacities of the country's
    records, each record taken once for every category among its four
    fuel columns and not at all when it has none (in exact arithmetic, the
    column names of the categories being distinct).  So the sum equals the
    total capacity of the country when every record of the country falls
    under exactly one category.  The program computes these sums and
    quotients in binary floating point, which follows the identity up to
    rounding. *)
Theorem C9_capacity_by_fuel_counts_a_plant_once_per_category `{lib : Lib}
    (db : list Plant) (country iso_code : string)
    (summary : gmap string Value) :
  NoDup (fuel_column_name <$> fuel_thesaurus_keys) →
  country_summary db country iso_code = Ok summary →
  fuel_capacity_sum summary
  == weighted_total capacity_mw categories_of (of_country country db) / 1000
  ∧ (Forall (λ p, categories_of p = 1%nat) (of_country country db) →
     capacity_consistent summary).
Proof.
  intros Hnd Hsum.
  destruct (decide (of_country country db = [])) as [Hnil|Hrows].
  - assert (summary = minimal_summary country iso_code) as ->.
    { unfold country_summary in Hsum. rewrite Hnil in Hsum. simpl in Hsum.
      by injection Hsum as <-. }
    assert (Hzero : fuel_capacity_sum (minimal_summary country iso_code) == 0).
    { unfold fuel_capacity_sum.
      rewrite (foldr_capacity_ext _ _ (λ _, 0)).
      - apply foldr_zero.
      - apply Forall_forall. intros fuel _.
        by rewrite minimal_summary_no_capacity. }
    rewrite Hnil. split.
    + rewrite Hzero. simpl. reflexivity.
    + intros _. unfold capacity_consistent. rewrite Hzero.
      unfold minimal_summary.
      rewrite !lookup_insert_ne by discriminate. rewrite lookup_empty.
      reflexivity.
  - destruct (country_summary_entries db country iso_code summary Hnd Hrows
                Hsum) as [(t & Ht & Htotal) Hfuels].
    assert (Hweighted :
              fuel_capacity_sum summary
              == weighted_total capacity_mw categories_of
                   (of_country country db) / 1000).
    { unfold fuel_capacity_sum.
      rewrite (foldr_capacity_ext _ _
                 (λ fuel, as_Q (Some (fuel_capacity_gw
                                        (of_country country db) fuel)))).
      - apply fuel_capacities_weighted.
      - eapply Forall_impl; [exact Hfuels|]. intros fuel H. simpl in H.
        by rewrite H. }
    split; [done|]. intros Hone. unfold capacity_consistent.
    rewrite Hweighted, Htotal. simpl.
    rewrite (weighted_total_one capacity_mw categories_of _ Hone).
    pose proof (SUM_total (capacity_mw <$> of_country country db)) as Hs.
    rewrite Ht in Hs. simpl in Hs. by rewrite Hs.
Qed.

Lemma C9_single_fuel_witness :
  NoDup (fuel_column_name <$> fuel_thesaurus_keys (Lib := PwModel.lib))
  ∧ match country_summary (lib := PwModel.lib) single_fuel_db "Argentina" "ARG"
    with
    | Ok summary =>
        Forall (λ p, categories_of (lib := PwModel.lib) p = 1%nat)
          (of_country "Argentina" single_fuel_db)
        ∧ capacity_consistent (lib := PwModel.lib) summary
    | Raise _ => False
    end.
Proof.
  assert (Hnd : NoDup (fuel_column_name
                       <$> fuel_thesaurus_keys (Lib := PwModel.lib))).
  { apply (bool_decide_unpack _). vm_compute. exact I. }
  split; [exact Hnd|].
  destruct (country_summary (lib := PwModel.lib) single_fuel_db "Argentina"
              "ARG") as [summary|e] eqn:Hsum;
    [|vm_compute in Hsum; discriminate Hsum].
  assert (Hone : Forall (λ p, categories_of (lib := PwModel.lib) p = 1%nat)
                   (of_country "Argentina" single_fuel_db)).
  { apply (bool_decide_unpack _). vm_compute. exact I. }
  split; [exact Hone|].
  exact (proj2 (C9_capacity_by_fuel_counts_a_plant_once_per_category
                  (lib := PwModel.lib) single_fuel_db "Argentina" "ARG"
                  summary Hnd Hsum) Hone).
Defined.

(** C9, the claim as stated, refuted.  A plant of 1000 MW that burns gas
    and oil is counted under both: the categories sum to 2 GW against a
    total of 1 GW.  A plant of 1000 MW whose fuel columns are all NULL is
    counted under none, and no entry holds the capacity of such records:
    the categories sum to 0 GW against a total of 1 GW.  All the numbers
    involved are whole, so floating point plays no part. *)
Lemma C9_capacity_by_fuel_differs_from_total :
  match country_summary (lib := PwModel.lib) dual_fuel_db "Argentina" "ARG"
  with
  | Ok summary =>
      as_Q (summary !! "total_capacity_gw") == 1
      ∧ fuel_capacity_sum (lib := PwModel.lib) summary == 2
      ∧ ¬ capacity_consistent (lib := PwModel.lib) summary
  | Raise _ => False
  end
  ∧ match country_summary (lib := PwModel.lib) no_fuel_db "Argentina" "ARG"
    with
    | Ok summary =>
        as_Q (summary !! "total_capacity_gw") == 1
        ∧ fuel_capacity_sum (lib := PwModel.lib) summary == 0
        ∧ ¬ capacity_consistent (lib := PwModel.lib) summary
    | Raise _ => False
    end.
Proof.
  vm_compute. repeat split; try reflexivity; intros H; discriminate H.
Qed.
End SummaryClaims.

(** * Further properties of the scripts *)

(** ** build_database_ARG.py: the row loop, row by row *)
Section ARGRows.
Import Py Pw ARG.

(** A loop over rows of which some leave the state alone gives what the
    loop over the other rows gives. *)
Lemma for_each_skip {S A : Type} (body : S → A → result S) (keep : A → Prop)
    `{∀ x, Decision (keep x)} (xs : list A) (st : S) :
  (∀ st x, ¬ keep x → body st x = Ok st) →
  for_each body st (filter keep xs) = for_each body st xs.
Proof.
  intros Hskip. revert st. induction xs as [|x xs IH]; intros st; [done|].
  destruct (decide (keep x)) as [Hx|Hx].
  - rewrite filter_cons_True by done. simpl.
    destruct (body st x); [apply IH|done].
  - rewrite filter_cons_False by done. simpl. rewrite (Hskip st x Hx).
    apply IH.
Qed.

(** X1.  In every run that completes, each group-start row of the loop,
    and the first data row when it has a name, is accounted for exactly
    once: it is a record of the dictionary or it is the group left open
    when the rows run out. *)
Theorem X1_records_and_open_group_balance `{lib : Lib}
    (float_of_text : string → option Q) (rv0 : RawRow) (rest : list RawRow)
    (st : State) :
  Inj (=) (=) (make_id SAVE_CODE) →
  truthy NO_DATA_UNICODE = false →
  ARG.run float_of_text (rv0 :: rest) = Ok st →
  (length (plants_dictionary st) + open_groups st
   = (if truthy (format_string (rv_name rv0) DefaultEncoding) then 1 else 0)
     + length (filter (λ rv, starts_group rv = true) rest))%nat.
Proof.
  intros Hinj Hnd Hrun.
  pose proof (run_balance float_of_text Hinj rv0 rest st Hnd Hrun) as H.
  unfold identifiers in H. by rewrite length_fmap in H.
Qed.

Lemma X1_balance_witness :
  Inj (=) (=) (make_id (Lib := PwModel.lib) SAVE_CODE)
  ∧ truthy (NO_DATA_UNICODE (Lib := PwModel.lib)) = false
  ∧ match Inputs.arg_run [Inputs.central_a; Inputs.unit_of_a; Inputs.central_b]
    with
    | Ok st =>
        (length (plants_dictionary st) + open_groups st
         = (if truthy (PwModel.format_string (rv_name Inputs.central_a)
                         DefaultEncoding) then 1 else 0)
           + length (filter (λ rv, starts_group (lib := PwModel.lib) rv = true)
                       [Inputs.unit_of_a; Inputs.central_b]))%nat
    | Raise _ => False
    end.
Proof.
  split; [apply model_make_id_inj|]. split; [reflexivity|].
  destruct (Inputs.arg_run
              [Inputs.central_a; Inputs.unit_of_a; Inputs.central_b])
    as [st|e] eqn:Hrun; [|vm_compute in Hrun; discriminate Hrun].
  exact (X1_records_and_open_group_balance (lib := PwModel.lib)
           decimal_float Inputs.central_a
           [Inputs.unit_of_a; Inputs.central_b] st
           (model_make_id_inj SAVE_CODE) eq_refl Hrun).
Defined.

(** X2.  Islanded rows after the first data row change nothing: a run
    gives the same result, records, loop variables, diagnostics or
    exception, as the run on the rows without them. *)
Theorem X2_islanded_rows_of_the_loop_are_skipped `{lib : Lib}
    (float_of_text : string → option Q) (rv0 : RawRow) (rest : list RawRow) :
  ARG.run float_of_text (rv0 :: filter connected rest)
  = ARG.run float_of_text (rv0 :: rest).
Proof.
  unfold ARG.run. destruct (first_row float_of_text rv0) as [st0|e]; [|done].
  simpl. apply for_each_skip. intros st rv Hrv.
  apply loop_body_islanded. unfold connected in Hrv.
  by destruct (decide (format_string (rv_grid rv) NoEncoding = "AISLADO")).
Qed.
End ARGRows.

Section ARGGroups.
Import Py Pw ARG.
Local Open Scope Q_scope.

Lemma additional_unit_body `{lib : Lib} float_of_text st rv :
  additional_unit rv = true →
  ARG.loop_body float_of_text st rv
  = add_unit float_of_text st rv (format_string (rv_fuel rv) NoEncoding).
Proof.
  unfold additional_unit, ARG.loop_body. intros H.
  apply andb_true_iff in H as [H Hname].
  apply andb_true_iff in H as [Hgrid Hfuel].
  apply negb_true_iff, bool_decide_eq_false in Hgrid.
  apply negb_true_iff in Hname.
  rewrite decide_False by done. by rewrite Hfuel, Hname.
Qed.

(** X3.  Additional-unit rows whose numeric cells read are folded into
    the open group one by one, in the order of the rows: each row adds its
    converted capacity and its converted generation to the running sums of
    the group, by the very additions and products that the loop performs
    and in their order, and its fuels to the fuel set; neither the name,
    the owner, the dictionary, the counter nor the diagnostics change. *)
Theorem X3_additional_units_accumulate `{lib : Lib}
    (float_of_text : string → option Q) (units : list RawRow)
    (capacities generations : list Q) (st : State) :
  Forall (λ rv, additional_unit rv = true) units →
  Forall2 (λ rv q, float float_of_text (rv_capacity rv) = Ok q)
    units capacities →
  Forall2 (λ rv q, float float_of_text (rv_generation rv) = Ok q)
    units generations →
  ∃ st', for_each (ARG.loop_body float_of_text) st units = Ok st'
    ∧ current_capacity_sum st'
      = foldl (λ sum capacity, sum + capacity * CAPACITY_CONVERSION_TO_MW)
          (current_capacity_sum st) capacities
    ∧ current_generation_sum st'
      = foldl (λ sum generation,
                 sum + generation * GENERATION_CONVERSION_TO_GWH)
          (current_generation_sum st) generations
    ∧ current_fuel_types st'
      = current_fuel_types st
        ∪ ⋃ ((λ rv, standardize_fuel (format_string (rv_fuel rv) NoEncoding))
             <$> units)
    ∧ current_plant_name st' = current_plant_name st
    ∧ current_owner st' = current_owner st
    ∧ plants_dictionary st' = plants_dictionary st
    ∧ count st' = count st
    ∧ printed st' = printed st.
Proof.
  intros Hunits. revert capacities generations st.
  induction Hunits as [|rv units Hrv _ IH]; intros capacities generations st
    Hcap Hgen.
  - apply Forall2_nil_inv_l in Hcap as ->.
    apply Forall2_nil_inv_l in Hgen as ->.
    exists st. simpl. repeat split; try done.
    by rewrite union_empty_r_L.
  - apply Forall2_cons_inv_l in Hcap as (c & caps & Hc & Hcap & ->).
    apply Forall2_cons_inv_l in Hgen as (g & gens & Hg & Hgen & ->).
    cbn [for_each]. rewrite (additional_unit_body _ _ _ Hrv).
    unfold add_unit. rewrite Hc, Hg. cbn [mbind result_bind].
    match goal with
    | |- context [for_each _ ?s units] =>
        destruct (IH caps gens s Hcap Hgen)
          as (st' & Hrun & Hc' & Hg' & Hf' & Hn' & Ho' & Hd' & Hk' & Hp')
    end.
    exists st'. rewrite Hrun. cbn in Hc', Hg', Hf', Hn', Ho', Hd', Hk', Hp'.
    repeat split; try done.
    rewrite Hf'. rewrite fmap_cons. simpl. by rewrite (assoc_L (∪)).
Qed.

Lemma X3_units_witness :
  Forall (λ rv, additional_unit (lib := PwModel.lib) rv = true)
    [Inputs.unit_of_a; Inputs.second_unit_of_a]
  ∧ Forall2 (λ rv q, float decimal_float (rv_capacity rv) = Ok q)
      [Inputs.unit_of_a; Inputs.second_unit_of_a] [500; 250]
  ∧ Forall2 (λ rv q, float decimal_float (rv_generation rv) = Ok q)
      [Inputs.unit_of_a; Inputs.second_unit_of_a] [200; 100]
  ∧ ∃ st0 st',
      first_row (lib := PwModel.lib) decimal_float Inputs.central_a = Ok st0
      ∧ for_each (ARG.loop_body (lib := PwModel.lib) decimal_float) st0
          [Inputs.unit_of_a; Inputs.second_unit_of_a] = Ok st'
      ∧ current_capacity_sum st'
        = current_capacity_sum st0 + 500 * CAPACITY_CONVERSION_TO_MW
          + 250 * CAPACITY_CONVERSION_TO_MW
      ∧ current_plant_name st' = current_plant_name st0.
Proof.
  assert (H1 : Forall (λ rv, additional_unit (lib := PwModel.lib) rv = true)
                 [Inputs.unit_of_a; Inputs.second_unit_of_a])
    by (repeat constructor).
  assert (H2 : Forall2 (λ rv q, float decimal_float (rv_capacity rv) = Ok q)
                 [Inputs.unit_of_a; Inputs.second_unit_of_a] [500; 250])
    by (repeat constructor).
  assert (H3 : Forall2 (λ rv q, float decimal_float (rv_generation rv) = Ok q)
                 [Inputs.unit_of_a; Inputs.second_unit_of_a] [200; 100])
    by (repeat constructor).
  split; [exact H1|]. split; [exact H2|]. split; [exact H3|].
  destruct (first_row (lib := PwModel.lib) decimal_float Inputs.central_a)
    as [st0|e] eqn:H0; [|vm_compute in H0; discriminate H0].
  destruct (X3_additional_units_accumulate (lib := PwModel.lib) decimal_float
              [Inputs.unit_of_a; Inputs.second_unit_of_a] [500; 250]
              [200; 100] st0 H1 H2 H3)
    as (st' & Hrun & Hc & _ & _ & Hn & _).
  exists st0, st'. split; [reflexivity|]. split; [exact Hrun|].
  split; [exact Hc|exact Hn].
Defined.

(** X4.  A group-start row of the loop never raises, whatever its numeric
    cells hold: the loop variables are set from the row, an unreadable
    capacity or generation cell counts as zero and is reported, and the
    counter advances exactly when a group was open before the row. *)
Theorem X4_group_start_row_never_raises `{lib : Lib}
    (float_of_text : string → option Q) (st : State) (rv : RawRow) :
  starts_group rv = true →
  ∃ st', ARG.loop_body float_of_text st rv = Ok st'
    ∧ current_plant_name st' = format_string (rv_name rv) NoEncoding
    ∧ current_owner st' = format_string (rv_owner rv) NoEncoding
    ∧ current_fuel_types st'
      = standardize_fuel (format_string (rv_fuel rv) NoEncoding)
    ∧ current_capacity_sum st'
      = match float float_of_text (rv_capacity rv) with
        | Ok q => q * CAPACITY_CONVERSION_TO_MW
        | Raise _ => 0
        end
    ∧ current_generation_sum st'
      = match float float_of_text (rv_generation rv) with
        | Ok q => q * GENERATION_CONVERSION_TO_GWH
        | Raise _ => 0
        end
    ∧ (is_ok (float float_of_text (rv_capacity rv)) = false →
       CantReadCapacity (format_string (rv_name rv) NoEncoding) ∈ printed st')
    ∧ (is_ok (float float_of_text (rv_generation rv)) = false →
       CantReadGeneration (format_string (rv_name rv) NoEncoding)
         (rv_generation rv) ∈ printed st')
    ∧ open_groups st' = 1%nat
    ∧ count st' = (count st + Z.of_nat (open_groups st))%Z.
Proof.
  intros Hrv. eexists. split; [by apply loop_body_starts_group|].
  assert (Hname : truthy (format_string (rv_name rv) NoEncoding) = true).
  { unfold starts_group in Hrv. by apply andb_true_iff in Hrv as [_ ?]. }
  unfold start_group, open_groups. cbn -[float].
  destruct (float float_of_text (rv_capacity rv)) as [c|ec];
    destruct (float float_of_text (rv_generation rv)) as [g|eg];
    cbn; rewrite Hname;
    (repeat split; try done; try (intros _; set_solver));
    destruct (truthy (current_plant_name st)); cbn; lia.
Qed.

Lemma X4_group_start_witness :
  starts_group (lib := PwModel.lib) Inputs.central_unreadable = true
  ∧ ∃ st0 st',
      first_row (lib := PwModel.lib) decimal_float Inputs.central_a = Ok st0
      ∧ ARG.loop_body (lib := PwModel.lib) decimal_float st0
          Inputs.central_unreadable = Ok st'
      ∧ current_capacity_sum st' = 0
      ∧ count st' = 2%Z.
Proof.
  split; [reflexivity|].
  destruct (first_row (lib := PwModel.lib) decimal_float Inputs.central_a)
    as [st0|e] eqn:H0; [|vm_compute in H0; discriminate H0].
  destruct (X4_group_start_row_never_raises (lib := PwModel.lib) decimal_float
              st0 Inputs.central_unreadable eq_refl)
    as (st' & Hrun & _ & _ & _ & Hc & _ & _ & _ & _ & Hk).
  exists st0, st'. split; [reflexivity|]. split; [exact Hrun|].
  split; [exact Hc|]. rewrite Hk. vm_compute in H0.
  injection H0 as <-. reflexivity.
Defined.
End ARGGroups.

Section ARGRecords.
Import Py Pw ARG.
Context `{lib : Lib} (float_of_text : string → option Q).

Lemma dict_set_Forall {V : Type} (P : string * V → Prop) d k v :
  Forall P d → P (k, v) → Forall P (dict_set d k v).
Proof.
  intros Hd Hkv. induction Hd as [|[k' v'] d Hx Hd IH]; simpl.
  - by constructor.
  - destruct (decide (k' = k)); by constructor.
Qed.

Lemma add_plant_well_formed st :
  truthy (current_plant_name st) = true →
  Forall well_formed_record (plants_dictionary st) →
  Forall well_formed_record (plants_dictionary (add_plant st)).
Proof.
  intros Hname Hd. cbn [add_plant plants_dictionary].
  apply dict_set_Forall; [done|].
  unfold well_formed_record, new_plant. simpl. by repeat split.
Qed.

(** X5.  Every record that a completed run leaves in the dictionary is
    stored under its own identifier, has a non-empty name, carries the
    script's constants for country, year of data, source, URL and
    generation period, and leaves the location and the commissioning year
    for the enrichment step. *)
Theorem X5_records_of_a_run_are_well_formed
    (rows : list RawRow) (st : State) :
  ARG.run float_of_text rows = Ok st →
  Forall well_formed_record (plants_dictionary st).
Proof.
  destruct rows as [|rv0 rest]; [discriminate|]. cbn [ARG.run].
  destruct (first_row float_of_text rv0) as [st0|e] eqn:H0; [|discriminate].
  cbn [mbind result_bind]. intros Hrun.
  set (P := λ (_ : list RawRow) (s : State),
              Forall well_formed_record (plants_dictionary s)).
  assert (HP : P rest st).
  { eapply (for_each_invariant P); [| |exact Hrun].
    - intros done s rv s' IH. unfold P in *. unfold ARG.loop_body.
      destruct (decide _); [by intros [= <-]|].
      destruct (truthy (format_string (rv_fuel rv) NoEncoding)).
      + destruct (truthy (format_string (rv_name rv) NoEncoding)).
        * intros [= <-]. cbn [start_group plants_dictionary].
          destruct (truthy (current_plant_name s)) eqn:Hname; [|done].
          by apply add_plant_well_formed.
        * unfold add_unit.
          destruct (float float_of_text (rv_capacity rv)); [|discriminate].
          destruct (float float_of_text (rv_generation rv)); [|discriminate].
          by intros [= <-].
      + destruct (truthy (current_plant_name s)) eqn:Hname.
        * intros [= <-]. cbn [reset plants_dictionary].
          by apply add_plant_well_formed.
        * by intros [= <-].
    - unfold P. unfold first_row in H0.
      destruct (float float_of_text (rv_capacity rv0)); [|discriminate].
      destruct (float float_of_text (rv_generation rv0)); [|discriminate].
      injection H0 as <-. constructor. }
  exact HP.
Qed.

(** X6.  A fuel-less row of the loop never raises.  It closes the open
    group, if there is one, into at most one record and leaves no group
    open, so that any further fuel-less rows change nothing. *)
Theorem X6_table_end_closes_the_group_once (st : State) (rv : RawRow) :
  truthy NO_DATA_UNICODE = false →
  ends_table rv = true →
  ∃ st', ARG.loop_body float_of_text st rv = Ok st'
    ∧ open_groups st' = 0%nat
    ∧ count st' = (count st + Z.of_nat (open_groups st))%Z
    ∧ plants_dictionary st'
      = (if truthy (current_plant_name st)
         then dict_set (plants_dictionary st) (make_id SAVE_CODE (count st))
                (new_plant st)
         else plants_dictionary st)
    ∧ ∀ rv', ends_table rv' = true →
        ARG.loop_body float_of_text st' rv' = Ok st'.
Proof.
  intros Hnull Hrv.
  assert (Hbody : ∀ s r, ends_table r = true →
            ARG.loop_body float_of_text s r
            = if truthy (current_plant_name s) then Ok (reset (add_plant s))
              else Ok s).
  { intros s r H. unfold ends_table in H. unfold ARG.loop_body.
    apply andb_true_iff in H as [Hgrid Hfuel].
    apply negb_true_iff, bool_decide_eq_false in Hgrid.
    apply negb_true_iff in Hfuel.
    rewrite decide_False by done. by rewrite Hfuel. }
  rewrite (Hbody _ _ Hrv). unfold open_groups.
  destruct (truthy (current_plant_name st)) eqn:Hname.
  - eexists. split; [done|]. cbn. rewrite Hnull.
    repeat split; try done.
    intros rv' Hrv'. rewrite (Hbody _ _ Hrv'). cbn. by rewrite Hnull.
  - exists st. rewrite Hname. repeat split; try done; [lia|].
    intros rv' Hrv'. rewrite (Hbody _ _ Hrv'). by rewrite Hname.
Qed.
End ARGRecords.

Section ARGRecordsWitness.
Import Py Pw ARG.

Lemma X5_well_formed_witness :
  ∃ st, Inputs.arg_run [Inputs.central_a; Inputs.unit_of_a; Inputs.central_b;
                        Inputs.end_of_table] = Ok st
        ∧ Forall well_formed_record (plants_dictionary st).
Proof.
  destruct (Inputs.arg_run [Inputs.central_a; Inputs.unit_of_a;
                            Inputs.central_b; Inputs.end_of_table])
    as [st|e] eqn:Hrun; [|vm_compute in Hrun; discriminate Hrun].
  exists st. split; [reflexivity|].
  exact (X5_records_of_a_run_are_well_formed (lib := PwModel.lib)
           decimal_float _ st Hrun).
Defined.

Lemma X6_table_end_witness :
  truthy (NO_DATA_UNICODE (Lib := PwModel.lib)) = false
  ∧ ends_table (lib := PwModel.lib) Inputs.end_of_table = true
  ∧ ∃ st0 st',
      first_row (lib := PwModel.lib) decimal_float Inputs.central_a = Ok st0
      ∧ ARG.loop_body (lib := PwModel.lib) decimal_float st0
          Inputs.end_of_table = Ok st'
      ∧ open_groups st' = 0%nat
      ∧ ARG.loop_body (lib := PwModel.lib) decimal_float st'
          Inputs.end_of_table = Ok st'.
Proof.
  split; [reflexivity|]. split; [reflexivity|].
  destruct (first_row (lib := PwModel.lib) decimal_float Inputs.central_a)
    as [st0|e] eqn:H0; [|vm_compute in H0; discriminate H0].
  destruct (X6_table_end_closes_the_group_once (lib := PwModel.lib)
              decimal_float st0 Inputs.end_of_table eq_refl eq_refl)
    as (st' & Hrun & Hopen & _ & _ & Hagain).
  exists st0, st'. split; [reflexivity|]. split; [exact Hrun|].
  split; [exact Hopen|]. apply Hagain. reflexivity.
Defined.
End ARGRecordsWitness.

Section ARGTables.
Import Py Pw ARG.
Context `{lib : Lib}.

(** Reading the location file is one assignment per data row, in file
    order, unless a row is too short for the three cells it is asked
    for. *)
Lemma read_locations_rows headers rows :
  read_locations (headers :: rows)
  = if decide (Forall (λ row, 3 ≤ length row)%nat rows)
    then Ok (foldl (λ d row, <[location_key row := location_value row]> d)
               ∅ rows)
    else Raise IndexError.
Proof.
  cbn [read_locations]. generalize (∅ : gmap string (string * string)).
  induction rows as [|row rows IH]; intros d.
  - by rewrite decide_True by constructor.
  - cbn [for_each foldl]. unfold index.
    destruct (decide (3 ≤ length row)%nat) as [Hlen|Hlen].
    + destruct row as [|key [|lat [|lon rest]]]; simpl in Hlen; try lia.
      cbn. rewrite IH.
      destruct (decide (Forall _ rows)) as [Hall|Hall].
      * rewrite decide_True; [done|]. constructor; [simpl; lia|done].
      * rewrite decide_False; [done|]. by intros [_ ?]%Forall_cons.
    + rewrite decide_False by (by intros [? _]%Forall_cons).
      destruct row as [|key [|lat [|lon rest]]]; simpl in Hlen; try lia; done.
Qed.

(** X7.  Reading the location file succeeds exactly when every data row
    has at least three cells; the only exception that a header-bearing
    file can raise is IndexError, and the table never has more keys than
    the file has data rows. *)
Theorem X7_location_file_needs_three_cells_per_row
    (headers : list string) (rows : list (list string)) :
  (is_ok (read_locations (headers :: rows)) = true
   ↔ Forall (λ row, 3 ≤ length row)%nat rows)
  ∧ (∀ e, read_locations (headers :: rows) = Raise e → e = IndexError)
  ∧ (∀ d, read_locations (headers :: rows) = Ok d →
          (size d ≤ length rows)%nat).
Proof.
  rewrite read_locations_rows.
  destruct (decide (Forall _ rows)) as [Hall|Hall].
  - split; [done|]. split; [done|]. intros d [= <-]. clear Hall.
    induction rows as [|row rows IH] using rev_ind; [done|].
    rewrite foldl_app, length_app. simpl.
    rewrite map_size_insert.
    destruct (foldl _ ∅ rows !! location_key row); simpl; lia.
  - split; [|split; [by intros e [= <-]|done]].
    split; [done|]. intros H. by destruct Hall.
Qed.

(** X8.  When the location file reads, a name is looked up to the
    coordinates of the last data row that has this key after formatting,
    and to nothing when no row has it: of two rows with one key the later
    wins. *)
Theorem X8_last_location_row_wins (headers : list string)
    (rows : list (list string)) (d : gmap string (string * string))
    (k : string) :
  read_locations (headers :: rows) = Ok d →
  d !! k = location_value <$> last (filter (λ row, location_key row = k) rows).
Proof.
  rewrite read_locations_rows. destruct (decide _); [|discriminate].
  intros [= <-]. induction rows as [|row rows IH] using rev_ind; [done|].
  rewrite foldl_app, filter_app. cbn [foldl].
  destruct (decide (location_key row = k)) as [Hk|Hk].
  - rewrite filter_cons_True by done. rewrite filter_nil, last_snoc.
    subst k. by rewrite lookup_insert_eq.
  - rewrite filter_cons_False by done. rewrite filter_nil, app_nil_r.
    rewrite lookup_insert_ne by done. apply IH.
    by apply Forall_app in f as [? _].
Qed.
End ARGTables.

Section ARGTablesWitness.
Import Py Pw ARG.

Lemma X8_last_row_witness :
  ∃ d, read_locations (lib := PwModel.lib)
         [["name"; "latitude"; "longitude"];
          ["CENTRAL A"; "-34.6"; "-58.4"];
          [" CENTRAL A "; "-31.4"; "-64.2"]] = Ok d
       ∧ d !! "CENTRAL A" = Some ("-31.4", "-64.2").
Proof.
  destruct (read_locations (lib := PwModel.lib)
              [["name"; "latitude"; "longitude"];
               ["CENTRAL A"; "-34.6"; "-58.4"];
               [" CENTRAL A "; "-31.4"; "-64.2"]]) as [d|e] eqn:Hread;
    [|vm_compute in Hread; discriminate Hread].
  exists d. split; [reflexivity|].
  rewrite (X8_last_location_row_wins (lib := PwModel.lib) _ _ d "CENTRAL A"
             Hread).
  reflexivity.
Defined.
End ARGTablesWitness.

Section BRARows.
Import Py Pw BRA.
Context `{lib : Lib} (atof : string → option Q).
Variable plant_coordinates : gmap string (Q * Q).

(** A marked row raises or executes [break]; it never lets the loop go
    on. *)
Lemma loop_body_unidentified st row :
  unidentified row = true →
  (∃ e, BRA.loop_body atof plant_coordinates st row = Raise e)
  ∨ (∃ st', BRA.loop_body atof plant_coordinates st row = Ok (Break st')
            ∧ plants_dictionary st' = plants_dictionary st).
Proof.
  unfold unidentified, BRA.loop_body. intros Hmark.
  destruct (int _) as [plant_id|e]; simpl; [|eauto].
  destruct (standardize_fuel_BRA _) as [fuel|e]; simpl; [|eauto].
  destruct (lookup_coordinates _ _) as [[lat lon] found].
  simpl. destruct (atof _) as [capacity|]; simpl; [|eauto].
  rewrite Hmark. right. eauto.
Qed.

(** An unmarked row raises or lets the loop go on; it never executes
    [break]. *)
Lemma loop_body_identified st row st' :
  unidentified row = false →
  BRA.loop_body atof plant_coordinates st row ≠ Ok (Break st').
Proof.
  unfold unidentified, BRA.loop_body. intros Hmark.
  destruct (int _) as [plant_id|e]; simpl; [|done].
  destruct (standardize_fuel_BRA _) as [fuel|e]; simpl; [|done].
  destruct (lookup_coordinates _ _) as [[lat lon] found].
  simpl. destruct (atof _) as [capacity|]; simpl; [|done].
  by rewrite Hmark.
Qed.

(** X9.  At a row whose owner text holds the unidentified-owner marker
    the table ends for the script: whatever rows follow it, the run gives
    what it gives without them, and the marked row itself adds no record to
    what the rows before it gave. *)
Theorem X9_rows_after_an_unidentified_owner_are_never_read
    (before after : list TableRow) (row : TableRow) :
  unidentified row = true →
  BRA.run atof plant_coordinates (before ++ row :: after)
  = BRA.run atof plant_coordinates (before ++ [row])
  ∧ ∀ st1 st2,
      BRA.run atof plant_coordinates before = Ok st1 →
      BRA.run atof plant_coordinates (before ++ [row]) = Ok st2 →
      plants_dictionary st2 = plants_dictionary st1.
Proof.
  intros Hmark. unfold BRA.run. generalize BRA.initial. split.
  - revert s. induction before as [|x before IH]; intros st0; simpl.
    + destruct (loop_body_unidentified st0 row Hmark)
        as [[e ->]|(st' & -> & _)]; done.
    + destruct (BRA.loop_body atof plant_coordinates st0 x) as [[s|s]|e];
        [apply IH|done|done].
  - revert s. induction before as [|x before IH]; intros st0 st1 st2; simpl.
    + intros [= <-].
      destruct (loop_body_unidentified st0 row Hmark)
        as [[e ->]|(st' & -> & Hd)]; [done|]. by intros [= <-].
    + destruct (BRA.loop_body atof plant_coordinates st0 x) as [[s|s]|e];
        [apply IH| |done].
      by intros [= <-] [= <-].
Qed.

Lemma standardize_fuel_BRA_names fuel_string fuel :
  standardize_fuel_BRA fuel_string = Ok fuel → fuel ∈ fuel_names.
Proof.
  intros H. pose proof (standardize_fuel_BRA_defined _ _ H) as Hin.
  unfold fuel_codes in Hin. unfold fuel_names.
  repeat (apply elem_of_cons in Hin as [->|Hin];
          [vm_compute in H; injection H as <-; set_solver|]).
  by apply elem_of_nil in Hin.
Qed.

Lemma loop_body_kept n st row st' :
  kept n st →
  (BRA.loop_body atof plant_coordinates st row = Ok (Next st')
   ∨ BRA.loop_body atof plant_coordinates st row = Ok (Break st')) →
  kept (S n) st'.
Proof.
  intros (Hwf & Hnd & Hlen & Hcount). unfold BRA.loop_body.
  destruct (int _) as [plant_id|e]; simpl; [|by intros [|]].
  destruct (standardize_fuel_BRA _) as [fuel|e] eqn:Hfuel; simpl;
    [|by intros [|]].
  unfold lookup_coordinates.
  destruct (plant_coordinates !! _) as [coords|]; simpl;
    (destruct (atof _) as [capacity|]; simpl; [|by intros [|]]);
    (destruct (contains _ _);
     [intros [[=]|[= <-]]|intros [[= <-]|[=]]]);
    unfold kept; cbn [plants_dictionary found_coordinates_count];
    (split; [|split; [|split]]);
    try done; try lia;
    try (by apply dict_set_NoDup);
    try (etransitivity; [apply dict_set_length|lia]);
    (apply dict_set_Forall_record; [done|]);
    unfold well_formed_record; simpl;
    (repeat split; try done;
     eauto using standardize_fuel_BRA_names).
Qed.

(** X10.  Every record of a completed run is stored under its own
    identifier, has one of the six fuel names of [fuel_types], carries the
    script's constants, and has both coordinates or neither; no identifier
    occurs twice, there are at most as many records as rows, and the
    coordinate counter lies between zero and the number of rows. *)
Theorem X10_records_of_the_brazil_run (rows : list TableRow) (st : State) :
  BRA.run atof plant_coordinates rows = Ok st →
  Forall well_formed_record (plants_dictionary st)
  ∧ NoDup (fst <$> plants_dictionary st)
  ∧ (length (plants_dictionary st) ≤ length rows)%nat
  ∧ (0 ≤ found_coordinates_count st ≤ Z.of_nat (length rows))%Z.
Proof.
  unfold BRA.run.
  assert (Hgen : ∀ rows n st0 st,
            kept n st0 →
            for_each_break (BRA.loop_body atof plant_coordinates) st0 rows
            = Ok st →
            kept (n + length rows) st).
  { clear rows st. induction rows as [|row rows IH]; intros n st0 st Hk; simpl.
    - intros [= <-]. by rewrite Nat.add_0_r.
    - destruct (BRA.loop_body atof plant_coordinates st0 row)
        as [[st1|st1]|] eqn:Hb; [| |discriminate].
      + intros Hrest. replace (n + S (length rows))%nat
          with (S n + length rows)%nat by lia.
        eapply IH; [|exact Hrest]. eapply loop_body_kept; eauto.
      + intros [= <-].
        destruct (loop_body_kept n st0 row st1 Hk (or_intror Hb))
          as (? & ? & ? & ?).
        unfold kept. repeat split; try done; lia. }
  intros Hrun. apply (Hgen rows 0%nat initial st); [|done].
  unfold kept, initial. simpl. repeat split; try constructor; lia.
Qed.

(** X11.  When no row holds the marker, the coordinate counter of a
    completed run is the number of rows whose short CEG code is a key of
    the coordinate table: it counts rows, also those whose record a later
    row of the same identifier replaces. *)
Theorem X11_coordinate_counter_counts_rows (rows : list TableRow)
    (st : State) :
  Forall (λ row, unidentified row = false) rows →
  BRA.run atof plant_coordinates rows = Ok st →
  found_coordinates_count st
  = Z.of_nat (length (filter (has_coordinates plant_coordinates) rows)).
Proof.
  unfold BRA.run. intros Hrows.
  assert (Hgen : ∀ st0,
            for_each_break (BRA.loop_body atof plant_coordinates) st0 rows
            = Ok st →
            found_coordinates_count st
            = (found_coordinates_count st0
               + Z.of_nat (length (filter (has_coordinates plant_coordinates)
                                     rows)))%Z).
  { induction Hrows as [|row rows Hrow _ IH]; intros st0; simpl.
    - intros [= <-]. lia.
    - destruct (BRA.loop_body atof plant_coordinates st0 row)
        as [[st1|st1]|] eqn:Hb; [| |discriminate].
      + intros Hrest. rewrite (IH _ Hrest).
        revert Hb. unfold BRA.loop_body.
        destruct (int _) as [plant_id|e]; simpl; [|done].
        destruct (standardize_fuel_BRA _) as [fuel|e]; simpl; [|done].
        pose proof (lookup_coordinates_hit plant_coordinates
                      (strip (ceg_text row))) as Hhit.
        destruct (lookup_coordinates _ _) as [[lat lon] found].
        simpl in Hhit. simpl.
        destruct (atof _) as [capacity|]; simpl; [|done].
        destruct (contains _ _); [done|]. intros [= <-].
        cbn [found_coordinates_count]. subst found.
        destruct (decide (has_coordinates plant_coordinates row)) as [Hc|Hc].
        * rewrite filter_cons_True by done.
          rewrite bool_decide_eq_true_2 by done. simpl length. lia.
        * rewrite filter_cons_False by done.
          rewrite bool_decide_eq_false_2 by done. lia.
      + by destruct (loop_body_identified st0 row st1 Hrow). }
  intros Hrun. rewrite (Hgen _ Hrun). unfold initial. simpl. lia.
Qed.
End BRARows.

Section BRARowsWitness.
Import Py Pw BRA Inputs.

Lemma X9_unidentified_owner_witness :
  unidentified (lib := PwModel.lib) sem_dono = true
  ∧ bra_run ([roca_grande] ++ sem_dono :: [vento_norte])
    = bra_run ([roca_grande] ++ [sem_dono]).
Proof.
  split; [reflexivity|].
  exact (proj1 (X9_rows_after_an_unidentified_owner_are_never_read
                  (lib := PwModel.lib) decimal_float coordinates
                  [roca_grande] [vento_norte] sem_dono eq_refl)).
Defined.

Lemma X10_brazil_records_witness :
  ∃ st, bra_run [roca_grande; vento_norte] = Ok st
        ∧ Forall (well_formed_record (lib := PwModel.lib))
            (plants_dictionary st)
        ∧ NoDup (fst <$> plants_dictionary st).
Proof.
  destruct (bra_run [roca_grande; vento_norte]) as [st|e] eqn:Hrun;
    [|vm_compute in Hrun; discriminate Hrun].
  exists st. split; [reflexivity|].
  destruct (X10_records_of_the_brazil_run (lib := PwModel.lib) decimal_float
              coordinates [roca_grande; vento_norte] st Hrun)
    as (Hwf & Hnd & _).
  split; [exact Hwf|exact Hnd].
Defined.

Lemma X11_coordinate_counter_witness :
  Forall (λ row, unidentified (lib := PwModel.lib) row = false)
    [roca_grande; vento_norte]
  ∧ ∃ st, bra_run [roca_grande; vento_norte] = Ok st
          ∧ found_coordinates_count st = 1%Z.
Proof.
  assert (H : Forall (λ row, unidentified (lib := PwModel.lib) row = false)
                [roca_grande; vento_norte]) by (repeat constructor).
  split; [exact H|].
  destruct (bra_run [roca_grande; vento_norte]) as [st|e] eqn:Hrun;
    [|vm_compute in Hrun; discriminate Hrun].
  exists st. split; [reflexivity|].
  rewrite (X11_coordinate_counter_counts_rows (lib := PwModel.lib)
             decimal_float coordinates [roca_grande; vento_norte] st H Hrun).
  reflexivity.
Defined.
End BRARowsWitness.

Section BRATables.
Import Py Pw BRA.
Context (float_of_text : string → option Q).

Lemma read_coordinates_rows (rows : list (list string))
    (d0 : gmap string (Q * Q)) :
  let body := λ (d : gmap string (Q * Q)) row,
    ceg_id ← index row 0;
    latitude_text ← index row 1;
    latitude ← float float_of_text (CText latitude_text);
    longitude_text ← index row 2;
    longitude ← float float_of_text (CText longitude_text);
    Ok (<[ceg_id := (latitude, longitude)]> d) in
  is_ok (for_each body d0 rows)
  = forallb (readable_coordinates float_of_text) rows
  ∧ (∀ e, for_each body d0 rows = Raise e → e = IndexError ∨ e = ValueError)
  ∧ (∀ d, for_each body d0 rows = Ok d →
          dom d = dom d0 ∪ list_to_set (omap (λ row, row !! 0%nat) rows)).
Proof.
  intros body. revert d0. induction rows as [|row rows IH]; intros d0.
  - simpl. split; [done|]. split; [done|]. intros d [= <-].
    by rewrite union_empty_r_L.
  - destruct row as [|ceg_id [|lat [|lon rest]]].
    + cbn. split; [done|]. split; [|done]. intros e [= <-]. by left.
    + cbn. split; [done|]. split; [|done]. intros e [= <-]. by left.
    + cbn [for_each forallb omap readable_coordinates]. unfold body at 1 3 5.
      cbn. destruct (float_of_text lat) as [la|]; cbn.
      * split; [done|]. split; [|done]. intros e [= <-]. by left.
      * split; [done|]. split; [|done]. intros e [= <-]. by right.
    + cbn [for_each forallb omap readable_coordinates]. unfold body at 1 3 5.
      cbn. destruct (float_of_text lat) as [la|]; cbn.
      * destruct (float_of_text lon) as [lo|]; cbn.
        -- destruct (IH (<[ceg_id := (la, lo)]> d0)) as (Hok & Hexn & Hdom).
           split; [exact Hok|]. split; [exact Hexn|].
           intros d Hd. rewrite (Hdom d Hd), dom_insert_L.
           rewrite (comm_L (∪) {[ceg_id]} (dom d0)).
           by rewrite <- (assoc_L (∪)).
        -- split; [done|]. split; [|done]. intros e [= <-]. by right.
      * split; [done|]. split; [|done]. intros e [= <-]. by right.
Qed.

(** X12.  Reading the Brazilian coordinate file succeeds exactly when
    every data row has three cells or more of which the second and the
    third read as floats; otherwise it raises IndexError or ValueError.  The
    keys of the table are the first cells of the data rows, as they stand
    in the file. *)
Theorem X12_coordinate_file_rows_must_read `{lib : Lib}
    (headers : list string) (rows : list (list string)) :
  is_ok (read_coordinates float_of_text (headers :: rows))
  = forallb (readable_coordinates float_of_text) rows
  ∧ (∀ e, read_coordinates float_of_text (headers :: rows) = Raise e →
          e = IndexError ∨ e = ValueError)
  ∧ (∀ d, read_coordinates float_of_text (headers :: rows) = Ok d →
          dom d = list_to_set (omap (λ row, row !! 0%nat) rows)).
Proof.
  cbn [read_coordinates].
  destruct (read_coordinates_rows rows ∅) as (Hok & Hexn & Hdom).
  split; [exact Hok|]. split; [exact Hexn|].
  intros d Hd. by rewrite (Hdom d Hd), dom_empty_L, union_empty_l_L.
Qed.
End BRATables.

Section SummaryErrors.
Import Py Pw Summary.
Context `{lib : Lib}.






Lemma check_codes (countries : gmap string string) (codes : list string) :
  for_each (λ (_ : unit) iso_code,
              if decide (iso_code ∈ dom countries) then Ok ()
              else Raise ValueError) () codes
  = if decide (Forall (λ iso_code, iso_code ∈ dom countries) codes)
    then Ok () else Raise ValueError.
Proof.
  induction codes as [|iso codes IH]; cbn [for_each].
  - by destruct (decide _) as [|[]].
  - destruct (decide (iso ∈ dom countries)) as [Hin|Hout].
    + rewrite IH. destruct (decide (Forall _ codes)) as [Hall|Hall].
      * rewrite decide_True; [done|by constructor].
      * rewrite decide_False; [done|]. by intros [_ ?]%Forall_cons.
    + rewrite decide_False; [done|]. by intros [? _]%Forall_cons.
Qed.

(** X14.  With country codes on the command line, the list of codes is
    the given names in upper case, in the given order and with their
    repetitions, when each of them in upper case is a code of the country
    dictionary; otherwise the program raises ValueError. *)
Theorem X14_requested_codes_are_upper_cased_and_checked
    (countries : gmap string string) (names : list string) :
  prepare_codes countries (Some names)
  = if decide (Forall (λ name, upper name ∈ dom countries) names)
    then Ok (upper <$> names) else Raise ValueError.
Proof.
  unfold prepare_codes. rewrite check_codes.
  destruct (decide (Forall _ (upper <$> names))) as [Hall|Hall].
  - rewrite decide_True; [done|]. by apply Forall_fmap in Hall.
  - rewrite decide_False; [done|]. intros H. apply Hall. by apply Forall_fmap.
Qed.

Lemma by_country_name_total (countries : gmap string string) :
  Total (by_country_name countries).
Proof. intros k1 k2. unfold by_country_name. apply String.leb_total. Qed.

(** X15.  Without country codes on the command line, the program never
    fails to prepare its list: it takes every code of the country
    dictionary exactly once, in the order of the country names. *)
Theorem X15_default_codes_are_all_codes_by_country_name
    (countries : gmap string string) :
  ∃ codes, prepare_codes countries None = Ok codes
    ∧ codes ≡ₚ elements (dom countries)
    ∧ NoDup codes
    ∧ (∀ iso_code, iso_code ∈ codes ↔ is_Some (countries !! iso_code))
    ∧ Sorted (by_country_name countries) codes.
Proof.
  eexists. split; [reflexivity|].
  pose proof (merge_sort_Permutation (by_country_name countries)
                (elements (dom countries))) as Hperm.
  split; [exact Hperm|]. split; [|split].
  - rewrite Hperm. apply NoDup_elements.
  - intros iso_code. rewrite Hperm, elem_of_elements. apply elem_of_dom.
  - pose proof (by_country_name_total countries) as Htotal.
    apply (Sorted_merge_sort (by_country_name countries)).
Qed.





End SummaryErrors.

Section SummaryErrorsWitness.
Import Py Pw Summary Inputs.


End SummaryErrorsWitness.
